(** * A shallow embedding of [blockchain.py]

    The ledger of [src/blockchain.py] (class [Blockchain] and the routes
    of the node) is embedded as executable Rocq definitions, together with the
    parts of the Python runtime it relies on: SHA-256 ([hashlib]),
    [json.dumps] with sorted keys, [str] formatting, and the network
    location that [urlparse] extracts.

    Conventions.
    - A Python [str] is a Rocq [string]; every character stands for the code
      point of the same number, so the model covers text over the code
      points 0 to 255.
    - A Python [float] is carried by the text [repr] gives it; no arithmetic
      on floats is modelled (see [Unsupported]).
    - A Python [dict] is an association list in insertion order. *)

From Stdlib Require Import ZArith List String Ascii Bool Lia Permutation.
From Stdlib Require Import DecimalString.
From stdpp Require Import base gmap strings sorting.
Import ListNotations.

Local Open Scope string_scope.
Local Open Scope Z_scope.

#[local] Set Warnings "-register-all".

(** ** SHA-256 (FIPS 180-4), on 32-bit words held in [Z] *)

Module SHA256.

Definition mask32 : Z := 0xFFFFFFFF.

Definition add32 (x y : Z) : Z := Z.land (x + y) mask32.

Definition rotr (n x : Z) : Z :=
  Z.land (Z.lor (Z.shiftr x n) (Z.shiftl x (32 - n))) mask32.

Definition shr (n x : Z) : Z := Z.shiftr x n.

Definition not32 (x : Z) : Z := Z.lxor x mask32.

Definition Ch (x y z : Z) : Z := Z.lxor (Z.land x y) (Z.land (not32 x) z).

Definition Maj (x y z : Z) : Z :=
  Z.lxor (Z.lxor (Z.land x y) (Z.land x z)) (Z.land y z).

Definition bsig0 (x : Z) : Z := Z.lxor (Z.lxor (rotr 2 x) (rotr 13 x)) (rotr 22 x).
Definition bsig1 (x : Z) : Z := Z.lxor (Z.lxor (rotr 6 x) (rotr 11 x)) (rotr 25 x).
Definition ssig0 (x : Z) : Z := Z.lxor (Z.lxor (rotr 7 x) (rotr 18 x)) (shr 3 x).
Definition ssig1 (x : Z) : Z := Z.lxor (Z.lxor (rotr 17 x) (rotr 19 x)) (shr 10 x).

(** The constants of the standard are roots of the first primes: the first
    32 bits of the fractional part of the cube root (round constants) and of
    the square root (initial digest). *)
Definition primes : list Z :=
  [ 2; 3; 5; 7; 11; 13; 17; 19; 23; 29; 31; 37; 41; 43; 47; 53; 59; 61; 67;
    71; 73; 79; 83; 89; 97; 101; 103; 107; 109; 113; 127; 131; 137; 139; 149;
    151; 157; 163; 167; 173; 179; 181; 191; 193; 197; 199; 211; 223; 227;
    229; 233; 239; 241; 251; 257; 263; 269; 271; 277; 281; 283; 293; 307;
    311 ].

(** Integer cube root of a number below 2 to the 120, bit by bit. *)
Definition cube_root (n : Z) : Z :=
  fold_left (fun r i => let c := Z.lor r (Z.shiftl 1 (Z.of_nat i)) in
                      if c * c * c <=? n then c else r)
            (rev (seq 0 40)) 0.

Definition frac_cube_root (p : Z) : Z := Z.land (cube_root (Z.shiftl p 96)) mask32.

Definition frac_square_root (p : Z) : Z := Z.land (Z.sqrt (Z.shiftl p 64)) mask32.

Definition K : list Z := Eval vm_compute in map frac_cube_root primes.

(** The eight working variables, also the running digest. *)
Record state := State { sa : Z; sb : Z; sc : Z; sd : Z;
                        se : Z; sf : Z; sg : Z; sh : Z }.

Definition H0 : state :=
  Eval vm_compute in
    match map frac_square_root (firstn 8 primes) with
    | [a; b; c; d; e; f; g; h] => State a b c d e f g h
    | _ => State 0 0 0 0 0 0 0 0
    end.

(** Padding: the byte 0x80, zero bytes up to 56 modulo 64, then the bit
    length of the message as a 64-bit big-endian integer. *)
Definition be_bytes (n : nat) (x : Z) : list Z :=
  map (fun i => Z.land (Z.shiftr x (8 * Z.of_nat i)) 0xFF) (rev (seq 0 n)).

Definition pad (msg : list Z) : list Z :=
  let len := Z.of_nat (List.length msg) in
  let zeros := Z.to_nat ((55 - len) mod 64) in
  msg ++ [0x80] ++ repeat 0 zeros ++ be_bytes 8 (8 * len).

(** Big-endian 32-bit words of a byte string. *)
Fixpoint words (bs : list Z) : list Z :=
  match bs with
  | b0 :: b1 :: b2 :: b3 :: rest =>
      Z.lor (Z.shiftl b0 24) (Z.lor (Z.shiftl b1 16) (Z.lor (Z.shiftl b2 8) b3))
      :: words rest
  | _ => []
  end.

(** One step of the message schedule on the window of the last 16 words. *)
Definition next_w (win : list Z) : Z :=
  add32 (add32 (ssig1 (nth 14 win 0)) (nth 9 win 0))
        (add32 (ssig0 (nth 1 win 0)) (nth 0 win 0)).

Definition round (s : state) (k w : Z) : state :=
  let t1 := add32 (add32 (add32 (sh s) (bsig1 (se s)))
                         (add32 (Ch (se s) (sf s) (sg s)) k)) w in
  let t2 := add32 (bsig0 (sa s)) (Maj (sa s) (sb s) (sc s)) in
  State (add32 t1 t2) (sa s) (sb s) (sc s) (add32 (sd s) t1) (se s) (sf s) (sg s).

(** The 64 rounds; the window yields [W_t] at its head and is extended by
    the schedule as the rounds proceed. *)
Fixpoint rounds (ks : list Z) (win : list Z) (s : state) : state :=
  match ks with
  | [] => s
  | k :: ks' =>
      match win with
      | [] => s
      | w :: win' => rounds ks' (win' ++ [next_w win]) (round s k w)
      end
  end.

Definition compress (h : state) (block : list Z) : state :=
  let s := rounds K block h in
  State (add32 (sa h) (sa s)) (add32 (sb h) (sb s))
        (add32 (sc h) (sc s)) (add32 (sd h) (sd s))
        (add32 (se h) (se s)) (add32 (sf h) (sf s))
        (add32 (sg h) (sg s)) (add32 (sh h) (sh s)).

(** Folding [compress] over the 16-word blocks of the padded message. *)
Fixpoint blocks (n : nat) (ws : list Z) (h : state) : state :=
  match n with
  | O => h
  | S n' => blocks n' (skipn 16 ws) (compress h (firstn 16 ws))
  end.

Definition digest (msg : list Z) : state :=
  let ws := words (pad msg) in
  blocks (List.length ws / 16) ws H0.

Definition hex_digit (d : Z) : ascii :=
  if d <? 10 then ascii_of_nat (Z.to_nat (48 + d))
  else ascii_of_nat (Z.to_nat (87 + d)).

Definition nibble (w : Z) (i : Z) : ascii :=
  hex_digit (Z.land (Z.shiftr w (4 * i)) 0xF).

Definition hex8 (w : Z) (tail : string) : string :=
  String (nibble w 7) (String (nibble w 6) (String (nibble w 5)
  (String (nibble w 4) (String (nibble w 3) (String (nibble w 2)
  (String (nibble w 1) (String (nibble w 0) tail))))))).

Definition hex_of_state (s : state) : string :=
  hex8 (sa s) (hex8 (sb s) (hex8 (sc s) (hex8 (sd s)
  (hex8 (se s) (hex8 (sf s) (hex8 (sg s) (hex8 (sh s) ""))))))).

(** [hashlib.sha256(bytes).hexdigest()] *)
Definition hexdigest (msg : list Z) : string := hex_of_state (digest msg).

End SHA256.

(** ** Python strings and their UTF-8 encoding *)

Definition code_point (c : ascii) : Z := Z.of_nat (nat_of_ascii c).

(** [str.encode()]: UTF-8 of the code points below 256. *)
Fixpoint encode (s : string) : list Z :=
  match s with
  | EmptyString => []
  | String c rest =>
      let n := code_point c in
      if n <? 128 then n :: encode rest
      else Z.lor 0xC0 (Z.shiftr n 6) :: Z.lor 0x80 (Z.land n 0x3F) :: encode rest
  end.

(** [str(n)] for an [int]. *)
Definition str_of_int (n : Z) : string := NilZero.string_of_int (Z.to_int n).

(** ** Python values

    The values the program handles: what [json] can decode, which is also
    what the ledger itself builds. *)

Inductive pyval : Type :=
| VNone
| VBool (b : bool)
| VInt (n : Z)
| VFloat (repr : string)
| VStr (s : string)
| VList (items : list pyval)
| VDict (entries : list (string * pyval)).

(** Exceptions. [Unsupported] is not a Python exception: the model gives it
    where the source would do arithmetic on a [float]. *)
Inductive exn : Type :=
| IndexError
| KeyError (key : string)
| TypeError
| AttributeError
| ValueError
| RequestException
| Unsupported.

Inductive result (A : Type) : Type :=
| Ok (a : A)
| Raise (e : exn).
Arguments Ok {A} a.
Arguments Raise {A} e.

Definition rbind {A B : Type} (r : result A) (k : A -> result B) : result B :=
  match r with
  | Ok a => k a
  | Raise e => Raise e
  end.

Declare Scope result_scope.
Delimit Scope result_scope with result.
Notation "x <- r ;; k" := (rbind r (fun x => k))
  (at level 100, r at next level, right associativity) : result_scope.

Definition bool_int (b : bool) : Z := if b then 1 else 0.

(** Truth value of an object, as [or] and [if] test it. *)
Definition truthy (v : pyval) : bool :=
  match v with
  | VNone => false
  | VBool b => b
  | VInt n => negb (n =? 0)
  | VFloat r => negb (String.eqb r "0.0" || String.eqb r "-0.0")
  | VStr s => negb (String.eqb s "")
  | VList l => match l with [] => false | _ => true end
  | VDict d => match d with [] => false | _ => true end
  end.

Fixpoint assoc (key : string) (d : list (string * pyval)) : option pyval :=
  match d with
  | [] => None
  | (k, v) :: rest => if String.eqb k key then Some v else assoc key rest
  end.

(** [v[key]] for a [str] key. *)
Definition py_getitem (v : pyval) (key : string) : result pyval :=
  match v with
  | VDict d =>
      match assoc key d with
      | Some x => Ok x
      | None => Raise (KeyError key)
      end
  | _ => Raise TypeError
  end.

(** Position in a sequence of length [len] that the index [i] names,
    counting from the end when [i] is negative. *)
Definition seq_pos (len : nat) (i : Z) : option nat :=
  if (0 <=? i) && (i <? Z.of_nat len) then Some (Z.to_nat i)
  else if (i <? 0) && (- Z.of_nat len <=? i) then Some (Z.to_nat (Z.of_nat len + i))
  else None.

(** [v[i]] for an [int] index. *)
Definition py_index (v : pyval) (i : Z) : result pyval :=
  match v with
  | VList l =>
      match seq_pos (length l) i with
      | Some n => match l !! n with Some x => Ok x | None => Raise IndexError end
      | None => Raise IndexError
      end
  | VStr s =>
      match seq_pos (String.length s) i with
      | Some n => match get n s with
                  | Some c => Ok (VStr (String c ""))
                  | None => Raise IndexError
                  end
      | None => Raise IndexError
      end
  | VDict _ => Raise (KeyError (str_of_int i))
  | _ => Raise TypeError
  end.

(** [len(v)] *)
Definition py_len (v : pyval) : result Z :=
  match v with
  | VList l => Ok (Z.of_nat (length l))
  | VStr s => Ok (Z.of_nat (String.length s))
  | VDict d => Ok (Z.of_nat (length d))
  | _ => Raise TypeError
  end.

(** [v.append(x)] *)
Definition py_append (v x : pyval) : result pyval :=
  match v with
  | VList l => Ok (VList (l ++ [x]))
  | _ => Raise AttributeError
  end.

(** [v + n] for an [int] [n]. *)
Definition py_add_int (v : pyval) (n : Z) : result pyval :=
  match v with
  | VInt z => Ok (VInt (z + n))
  | VBool b => Ok (VInt (bool_int b + n))
  | VFloat _ => Raise Unsupported
  | _ => Raise TypeError
  end.

(** [v > n] for an [int] [n]. *)
Definition py_gt_int (v : pyval) (n : Z) : result bool :=
  match v with
  | VInt z => Ok (n <? z)
  | VBool b => Ok (n <? bool_int b)
  | VFloat _ => Raise Unsupported
  | _ => Raise TypeError
  end.

(** The integer an [int] or [bool] stands for in a comparison. *)
Definition int_value (v : pyval) : Z :=
  match v with
  | VInt z => z
  | VBool b => bool_int b
  | _ => 0
  end.

(** [v != s] for a [str] [s]: only that very string is equal to it. *)
Definition py_ne_str (v : pyval) (s : string) : bool :=
  match v with
  | VStr t => negb (String.eqb t s)
  | _ => true
  end.

(** ** Text of a value: [repr], [str] and [json.dumps] *)

Definition hex2 (n : Z) : string :=
  String (SHA256.nibble n 1) (String (SHA256.nibble n 0) "").

(** The character of code 34, the double quote. *)
Definition double_quote : ascii := ascii_of_nat 34.

Fixpoint contains_char (c : ascii) (s : string) : bool :=
  match s with
  | EmptyString => false
  | String x rest => Ascii.eqb x c || contains_char c rest
  end.

(** Characters [repr] shows as they are: the printable ones. *)
Definition printable (n : Z) : bool :=
  ((32 <=? n) && (n <? 127)) || ((161 <=? n) && negb (n =? 173)).

Definition repr_char (quote : ascii) (c : ascii) : string :=
  let n := code_point c in
  if Ascii.eqb c quote || (n =? 92) then String "\" (String c "")
  else if n =? 9 then "\t"
  else if n =? 10 then "\n"
  else if n =? 13 then "\r"
  else if printable n then String c ""
  else "\x" ++ hex2 n.

Fixpoint repr_chars (quote : ascii) (s : string) : string :=
  match s with
  | EmptyString => ""
  | String c rest => repr_char quote c ++ repr_chars quote rest
  end.

(** [repr(s)] for a [str]: single quotes, unless the text has a single
    quote and no double quote. *)
Definition repr_str (s : string) : string :=
  let quote : ascii :=
    if contains_char "'" s && negb (contains_char double_quote s)
    then double_quote
    else "'"%char in
  String quote (repr_chars quote s ++ String quote "").

(** [', '.join(parts)] *)
Definition join (parts : list string) : string := String.concat ", " parts.

Fixpoint py_repr (v : pyval) : string :=
  match v with
  | VNone => "None"
  | VBool b => if b then "True" else "False"
  | VInt n => str_of_int n
  | VFloat r => r
  | VStr s => repr_str s
  | VList l => "[" ++ join (map py_repr l) ++ "]"
  | VDict d =>
      "{" ++ join (map (fun kv : string * pyval =>
                          let (k, x) := kv in repr_str k ++ ": " ++ py_repr x) d)
          ++ "}"
  end.

(** [str(v)], which is what an f-string field [{v}] puts in the text. *)
Definition py_str (v : pyval) : string :=
  match v with
  | VStr s => s
  | _ => py_repr v
  end.

Definition json_char (c : ascii) : string :=
  let n := code_point c in
  if (n =? 34) || (n =? 92) then String "\" (String c "")
  else if n =? 10 then "\n"
  else if n =? 13 then "\r"
  else if n =? 9 then "\t"
  else if n =? 8 then "\b"
  else if n =? 12 then "\f"
  else if (32 <=? n) && (n <? 127) then String c ""
  else "\u00" ++ hex2 n.

Fixpoint json_chars (s : string) : string :=
  match s with
  | EmptyString => ""
  | String c rest => json_char c ++ json_chars rest
  end.

(** A [str] as [json.dumps] writes it ([ensure_ascii] is on). *)
Definition json_str (s : string) : string :=
  String double_quote (json_chars s ++ String double_quote "").

(** A [float] as [json.dumps] writes it ([allow_nan] is on). *)
Definition json_float (r : string) : string :=
  if String.eqb r "nan" then "NaN"
  else if String.eqb r "inf" then "Infinity"
  else if String.eqb r "-inf" then "-Infinity"
  else r.

(** Sorting of the items of a [dict] by key, keys compared as Python
    compares [str]: code point by code point. *)
Fixpoint insert_item {A : Type} (kv : string * A) (l : list (string * A))
  : list (string * A) :=
  match l with
  | [] => [kv]
  | x :: rest =>
      if String.leb (fst kv) (fst x) then kv :: l else x :: insert_item kv rest
  end.

Fixpoint sort_items {A : Type} (l : list (string * A)) : list (string * A) :=
  match l with
  | [] => []
  | x :: rest => insert_item x (sort_items rest)
  end.

Definition json_item (kv : string * string) : string :=
  json_str (fst kv) ++ ": " ++ snd kv.

(** [json.dumps(v, sort_keys=True)]. The items of a [dict] are rendered
    and then put in key order; the order alone decides the text. *)
Fixpoint json_dumps (v : pyval) : string :=
  match v with
  | VNone => "null"
  | VBool b => if b then "true" else "false"
  | VInt n => str_of_int n
  | VFloat r => json_float r
  | VStr s => json_str s
  | VList l => "[" ++ join (map json_dumps l) ++ "]"
  | VDict d =>
      "{" ++ join (map json_item
                     (sort_items (map (fun kv : string * pyval =>
                                         let (k, x) := kv in (k, json_dumps x)) d)))
          ++ "}"
  end.

(** ** class Blockchain *)

(** [Blockchain.hash] (a static method) *)
Definition hash (block : pyval) : string :=
  let block_string := encode (json_dumps block) in
  SHA256.hexdigest block_string.

(** [Blockchain.valid_proof] (a static method) *)
Definition valid_proof (last_proof proof : pyval) : bool :=
  let guess := encode (py_str last_proof ++ py_str proof) in
  let guess_hash := SHA256.hexdigest guess in
  String.eqb (substring 0 4 guess_hash) "0000".

(** [Blockchain.proof_of_work]: the loop, entered with the candidate
    [proof]; [None] when [fuel] iterations have not found a proof. *)
Fixpoint proof_of_work_from (fuel : nat) (last_proof : pyval) (proof : Z)
  : option Z :=
  match fuel with
  | O => None
  | S fuel' =>
      if valid_proof last_proof (VInt proof) then Some proof
      else proof_of_work_from fuel' last_proof (proof + 1)
  end.

Definition proof_of_work (fuel : nat) (last_proof : pyval) : option Z :=
  proof_of_work_from fuel last_proof 0.

(** The attributes of a [Blockchain] object. *)
Record Blockchain : Type := mkBlockchain {
  chain : pyval;
  current_transactions : list pyval;
  nodes : gset string
}.

(** Methods run on the object and may raise: what was assigned before an
    exception stays assigned. *)
Definition M (A : Type) : Type := Blockchain -> result A * Blockchain.

Definition ret {A : Type} (a : A) : M A := fun self => (Ok a, self).

Definition bind {A B : Type} (m : M A) (k : A -> M B) : M B :=
  fun self =>
    match m self with
    | (Ok a, self') => k a self'
    | (Raise e, self') => (Raise e, self')
    end.

Definition lift {A : Type} (r : result A) : M A := fun self => (r, self).

Definition get_self : M Blockchain := fun self => (Ok self, self).

Definition set_chain (c : pyval) : M unit :=
  fun self => (Ok tt, mkBlockchain c (current_transactions self) (nodes self)).

Definition set_current_transactions (l : list pyval) : M unit :=
  fun self => (Ok tt, mkBlockchain (chain self) l (nodes self)).

Definition set_nodes (s : gset string) : M unit :=
  fun self => (Ok tt, mkBlockchain (chain self) (current_transactions self) s).

Declare Scope method_scope.
Delimit Scope method_scope with M.
Notation "x <- m ;; k" := (bind m (fun x => k))
  (at level 100, m at next level, right associativity) : method_scope.
Notation "m ;; k" := (bind m (fun _ => k))
  (at level 100, right associativity) : method_scope.

(** The property [last_block]. *)
Definition last_block : M pyval :=
  (self <- get_self ;; lift (py_index (chain self) (-1)))%M.

(** [Blockchain.new_block]; [now] is what [time()] returns. *)
Definition new_block (previous_hash proof : pyval) (now : string) : M pyval :=
  (self <- get_self ;;
   len <- lift (py_len (chain self)) ;;
   link <- (if truthy previous_hash then ret previous_hash
            else (last <- lift (py_index (chain self) (-1)) ;;
                  ret (VStr (hash last)))) ;;
   let block := VDict [ ("index", VInt (len + 1));
                        ("timestamp", VFloat now);
                        ("transactions", VList (current_transactions self));
                        ("proof", proof);
                        ("previous_hash", link) ] in
   set_current_transactions [] ;;
   chain' <- lift (py_append (chain self) block) ;;
   set_chain chain' ;;
   ret block)%M.

(** [Blockchain.new_transaction] *)
Definition new_transaction (sender recipient amount : pyval) : M pyval :=
  (self <- get_self ;;
   set_current_transactions
     (current_transactions self ++
        [VDict [ ("sender", sender); ("recipient", recipient);
                 ("amount", amount) ]]) ;;
   last <- last_block ;;
   index <- lift (py_getitem last "index") ;;
   lift (py_add_int index 1))%M.

(** [Blockchain.__init__] *)
Definition init (now : string) : result pyval * Blockchain :=
  new_block (VInt 1) (VInt 100) now (mkBlockchain (VList []) [] ∅).

(** Length of a sequence, for the fuel of loops that run over it. *)
Definition seq_len (v : pyval) : nat :=
  match py_len v with
  | Ok n => Z.to_nat n
  | Raise _ => O
  end.

(** The [while] loop of [Blockchain.valid_chain]. Every iteration moves
    [current_index] one step towards [len(chain)], so [fuel] above the
    length is never used up (see [valid_chain_walk] below); the [print]
    calls write to the console and leave no trace in the result. *)
Fixpoint valid_chain_loop (fuel : nat) (chain last_block : pyval)
  (current_index : Z) : result bool :=
  match fuel with
  | O => Raise Unsupported
  | S fuel' =>
      (len <- py_len chain ;;
       if current_index <? len then
         block <- py_index chain current_index ;;
         link <- py_getitem block "previous_hash" ;;
         if py_ne_str link (hash last_block) then Ok false
         else
           last_proof <- py_getitem last_block "previous_hash" ;;
           proof <- py_getitem block "proof" ;;
           if negb (valid_proof last_proof proof) then Ok false
           else valid_chain_loop fuel' chain block (current_index + 1)
       else Ok true)%result
  end.

(** [Blockchain.valid_chain] *)
Definition valid_chain (chain : pyval) : result bool :=
  (last_block <- py_index chain 0 ;;
   valid_chain_loop (S (seq_len chain)) chain last_block 1)%result.

(** What [requests.get] hands back: the status and what [.json()] gives. *)
Record response : Type := mkResponse {
  status_code : Z;
  json : result pyval
}.

Section Network.

(** [requests.get(url)]: the network, as seen from this node. *)
Variable requests_get : string -> result response.

(** The [for] loop of [Blockchain.resolve_conflicts]. [max_chain_length]
    is an [int] or a [bool] throughout, held by the integer it stands for. *)
Fixpoint resolve_scan (neighbours : list string) (new_chain : pyval)
  (max_chain_length : Z) : result pyval :=
  match neighbours with
  | [] => Ok new_chain
  | node :: rest =>
      (response <- requests_get ("http://" ++ node ++ "/chain") ;;
       if status_code response =? 200 then
         body <- json response ;;
         length <- py_getitem body "length" ;;
         body' <- json response ;;
         chain <- py_getitem body' "chain" ;;
         longer <- py_gt_int length max_chain_length ;;
         if longer then
           valid <- valid_chain chain ;;
           if valid then resolve_scan rest chain (int_value length)
           else resolve_scan rest new_chain max_chain_length
         else resolve_scan rest new_chain max_chain_length
       else resolve_scan rest new_chain max_chain_length)%result
  end.

(** [Blockchain.resolve_conflicts], the set [self.nodes] being iterated in
    the order [neighbours]. *)
Definition resolve_conflicts_in (neighbours : list string) : M bool :=
  (self <- get_self ;;
   max_chain_length <- lift (py_len (chain self)) ;;
   new_chain <- lift (resolve_scan neighbours VNone max_chain_length) ;;
   if truthy new_chain then (set_chain new_chain ;; ret true)
   else ret false)%M.

Definition resolve_conflicts : M bool :=
  fun self => resolve_conflicts_in (elements (nodes self)) self.

End Network.

(** ** [urlparse(address).netloc]

    After [urllib.parse.urlsplit] of CPython 3.11: a scheme, when the text
    before the first colon is one, is cut off; a network location is there
    only if what remains starts with two slashes, and runs up to the next
    [/], [?] or [#]; unbalanced square brackets in it raise [ValueError].
    The stripping of blanks and control characters and the later checks on
    bracketed and non-ASCII hosts are left out. *)

Fixpoint find_char (c : ascii) (s : string) : option nat :=
  match s with
  | EmptyString => None
  | String x rest =>
      if Ascii.eqb x c then Some O
      else match find_char c rest with
           | Some i => Some (S i)
           | None => None
           end
  end.

Definition is_alpha (c : ascii) : bool :=
  let n := code_point c in
  ((65 <=? n) && (n <=? 90)) || ((97 <=? n) && (n <=? 122)).

Definition scheme_char (c : ascii) : bool :=
  let n := code_point c in
  is_alpha c || ((48 <=? n) && (n <=? 57))
  || (n =? 43) || (n =? 45) || (n =? 46).

Fixpoint all_chars (p : ascii -> bool) (s : string) : bool :=
  match s with
  | EmptyString => true
  | String c rest => p c && all_chars p rest
  end.

Definition string_from (n : nat) (s : string) : string :=
  substring n (String.length s - n) s.

Definition strip_scheme (url : string) : string :=
  match find_char ":" url with
  | Some (S i) =>
      match url with
      | String c _ =>
          if is_alpha c && all_chars scheme_char (substring 0 (S i) url)
          then string_from (S (S i)) url
          else url
      | EmptyString => url
      end
  | _ => url
  end.

Fixpoint splitnetloc (s : string) : string :=
  match s with
  | EmptyString => ""
  | String c rest =>
      if Ascii.eqb c "/" || Ascii.eqb c "?" || Ascii.eqb c "#" then ""
      else String c (splitnetloc rest)
  end.

Definition urlparse_netloc (address : string) : result string :=
  let url := strip_scheme address in
  if String.eqb (substring 0 2 url) "//" then
    let netloc := splitnetloc (string_from 2 url) in
    if (contains_char "[" netloc && negb (contains_char "]" netloc))
       || (contains_char "]" netloc && negb (contains_char "[" netloc))
    then Raise ValueError
    else Ok netloc
  else Ok "".

(** [Blockchain.register_node] *)
Definition register_node (address : string) : M unit :=
  (netloc <- lift (urlparse_netloc address) ;;
   self <- get_self ;;
   set_nodes ({[ netloc ]} ∪ nodes self))%M.

(** ** The route [/mine]

    [node_identifier] is the module-level constant; [None] means that
    [fuel] iterations of the proof-of-work loop were not enough. The value
    returned is the dictionary given to [jsonify]. *)
Definition mine (fuel : nat) (node_identifier now : string) (blockchain : Blockchain)
  : option (result pyval * Blockchain) :=
  match (last_block <- py_index (chain blockchain) (-1) ;;
         last_proof <- py_getitem last_block "proof" ;;
         Ok (last_block, last_proof))%result with
  | Raise e => Some (Raise e, blockchain)
  | Ok (last_block, last_proof) =>
      match proof_of_work fuel last_proof with
      | None => None
      | Some proof =>
          Some ((new_transaction (VStr "0") (VStr node_identifier) (VInt 1) ;;
                 let previous_hash := hash last_block in
                 block <- new_block (VInt proof) (VStr previous_hash) now ;;
                 index <- lift (py_getitem block "index") ;;
                 transactions <- lift (py_getitem block "transactions") ;;
                 proof' <- lift (py_getitem block "proof") ;;
                 previous_hash' <- lift (py_getitem block "previous_hash") ;;
                 ret (VDict [ ("message", VStr "New Block forged.");
                              ("index", index);
                              ("transactions", transactions);
                              ("proof", proof');
                              ("previous_hash", previous_hash') ]))%M
                  blockchain)
      end
  end.

(** ** The other routes

    A route that reads the request gets [values], what
    [request.get_json()] has decoded. It returns the status together with
    the body of the reply: the dictionary given to [jsonify], or the text
    returned as it is. The routes act on the module-level [blockchain],
    the object the methods run on. *)

Definition reply : Type := pyval * Z.

(** [key in v] for a [str] [key]: a key of a [dict], an item of a [list],
    a part of a [str]. *)
Definition py_contains (v : pyval) (key : string) : result bool :=
  match v with
  | VDict d => Ok (match assoc key d with Some _ => true | None => false end)
  | VList l => Ok (existsb (fun x : pyval => negb (py_ne_str x key)) l)
  | VStr s => Ok (match String.index 0 key s with Some _ => true | None => false end)
  | _ => Raise TypeError
  end.

(** [all(k in values for k in required)]: the first key that is missing
    ends the test. *)
Fixpoint all_in (values : pyval) (required : list string) : result bool :=
  match required with
  | [] => Ok true
  | k :: rest =>
      (present <- py_contains values k ;;
       if present then all_in values rest else Ok false)%result
  end.

(** [v.get(key)] *)
Definition py_get (v : pyval) (key : string) : result pyval :=
  match v with
  | VDict d => Ok (match assoc key d with Some x => x | None => VNone end)
  | _ => Raise AttributeError
  end.

(** What a [for] loop over [v] goes through: the items of a [list], the
    characters of a [str], the keys of a [dict]. *)
Definition py_iter (v : pyval) : result (list pyval) :=
  match v with
  | VList l => Ok l
  | VStr s => Ok (map (fun c : ascii => VStr (String c "")) (list_ascii_of_string s))
  | VDict d => Ok (map (fun kv : string * pyval => VStr (fst kv)) d)
  | _ => Raise TypeError
  end.

(** [Blockchain.register_node] on whatever a request holds in the place of
    an address. [urlparse] takes an argument that is no [str] for [bytes]
    to decode: a truthy one has no [decode]; a falsy one is read as empty,
    and the network location found is then the empty [bytes], which the
    peer set of the model does not hold. *)
Definition register_value (node : pyval) : M unit :=
  match node with
  | VStr address => register_node address
  | _ => if truthy node then lift (Raise AttributeError) else lift (Raise Unsupported)
  end.

(** The loop [for node in nodes: blockchain.register_node(node)]. *)
Fixpoint register_each (items : list pyval) : M unit :=
  match items with
  | [] => ret tt
  | node :: rest => (register_value node ;; register_each rest)%M
  end.

Module Route.

(** The route [/chain] *)
Definition full_chain : M reply :=
  (blockchain <- get_self ;;
   length <- lift (py_len (chain blockchain)) ;;
   ret (VDict [ ("chain", chain blockchain); ("length", VInt length) ], 200))%M.

(** The route [/transactions/new] *)
Definition new_transaction (values : pyval) : M reply :=
  (complete <- lift (all_in values ["sender"; "recipient"; "amount"]) ;;
   if negb complete then ret (VStr "Missing values", 400)
   else
     sender <- lift (py_getitem values "sender") ;;
     recipient <- lift (py_getitem values "recipient") ;;
     amount <- lift (py_getitem values "amount") ;;
     index <- new_transaction sender recipient amount ;;
     ret (VDict [ ("message",
                   VStr ("Transaction will be added to Block " ++ py_str index)) ],
          201))%M.

(** The route [/nodes/register]. [listing] is the order in which
    [list(blockchain.nodes)] goes through the set, which is the
    interpreter's choice. *)
Definition register_nodes (listing : gset string -> list string) (values : pyval)
  : M reply :=
  (found <- lift (py_get values "nodes") ;;
   match found with
   | VNone => ret (VStr "Error: Please supply a valid list of nodes", 400)
   | _ =>
       items <- lift (py_iter found) ;;
       register_each items ;;
       blockchain <- get_self ;;
       ret (VDict [ ("message", VStr "New nodes have been added");
                    ("total_nodes", VList (map VStr (listing (nodes blockchain)))) ],
            201)
   end)%M.

(** The route [/nodes/resolve] *)
Definition consensus (requests_get : string -> result response) : M reply :=
  (replaced <- resolve_conflicts requests_get ;;
   blockchain <- get_self ;;
   if replaced then
     ret (VDict [ ("message", VStr "Our chain was replaced");
                  ("new_chain", chain blockchain) ], 200)
   else
     ret (VDict [ ("message", VStr "The main chain is authoritative");
                  ("chain", chain blockchain) ], 200))%M.

End Route.

(** ** Notions used to state the properties *)

(** The block at the end of a chain that is a list. *)
Definition final_block (v : pyval) : option pyval :=
  match v with
  | VList l => last l
  | _ => None
  end.

(** A record with the two entries the validator reads. *)
Definition block_shaped (v : pyval) : bool :=
  match py_getitem v "previous_hash", py_getitem v "proof" with
  | Ok _, Ok _ => true
  | _, _ => false
  end.

(** An entry of a record known to have it. *)
Definition field (v : pyval) (key : string) : pyval :=
  match py_getitem v key with
  | Ok x => x
  | Raise _ => VNone
  end.

(** The validator as the specification words it: adjacent pairs in turn,
    failing on a broken link or on a failed puzzle check. *)
Fixpoint is_valid_from (prev : pyval) (rest : list pyval) : bool :=
  match rest with
  | [] => true
  | cur :: rest' =>
      if py_ne_str (field cur "previous_hash") (hash prev) then false
      else if negb (valid_proof (field prev "previous_hash") (field cur "proof"))
           then false
           else is_valid_from cur rest'
  end.

(** The same walk with the lookups as the source does them. *)
Fixpoint walk_pairs (prev : pyval) (rest : list pyval) : result bool :=
  match rest with
  | [] => Ok true
  | cur :: rest' =>
      (link <- py_getitem cur "previous_hash" ;;
       if py_ne_str link (hash prev) then Ok false
       else
         last_proof <- py_getitem prev "previous_hash" ;;
         proof <- py_getitem cur "proof" ;;
         if negb (valid_proof last_proof proof) then Ok false
         else walk_pairs cur rest')%result
  end.

(** A digest whose first four characters are zeros. *)
Definition four_zeros (digest : string) : Prop :=
  exists rest, digest = String "0" (String "0" (String "0" (String "0" rest))).

(** The length a peer reports, when it is an [int] or a [bool]. *)
Definition reported (v : pyval) : option Z :=
  match v with
  | VInt z => Some z
  | VBool b => Some (bool_int b)
  | _ => None
  end.

(** The peer [node] answers with status 200, reports the length [len] and
    sends the chain [c]. *)
Definition snapshot (requests_get : string -> result response)
  (node : string) (len : Z) (c : pyval) : Prop :=
  exists r body v,
    requests_get ("http://" ++ node ++ "/chain") = Ok r /\
    status_code r = 200 /\
    json r = Ok body /\
    py_getitem body "length" = Ok v /\
    reported v = Some len /\
    py_getitem body "chain" = Ok c.

(** A snapshot that may replace a chain of length [local]. *)
Definition candidate (requests_get : string -> result response)
  (local : Z) (node : string) (len : Z) (c : pyval) : Prop :=
  snapshot requests_get node len c /\ local < len /\ valid_chain c = Ok true.

(** The reward transaction of [mine]. *)
Definition reward (node_identifier : string) : pyval :=
  VDict [ ("sender", VStr "0"); ("recipient", VStr node_identifier);
          ("amount", VInt 1) ].

(** No key twice in any [dict] of a value, as in every Python [dict]. *)
Fixpoint unique_keys (v : pyval) : bool :=
  match v with
  | VList l => forallb unique_keys l
  | VDict d =>
      bool_decide (NoDup (map fst d))
      && forallb (fun kv : string * pyval => let (_, x) := kv in unique_keys x) d
  | _ => true
  end.

(** Equal content: the same values entry by entry, whatever the order in
    which the keys of a [dict] were inserted. *)
Fixpoint same_content (v1 v2 : pyval) : bool :=
  match v1, v2 with
  | VNone, VNone => true
  | VBool a, VBool b => Bool.eqb a b
  | VInt a, VInt b => a =? b
  | VFloat a, VFloat b => String.eqb a b
  | VStr a, VStr b => String.eqb a b
  | VList l1, VList l2 =>
      (fix items (l1 l2 : list pyval) : bool :=
         match l1, l2 with
         | [], [] => true
         | x :: r1, y :: r2 => same_content x y && items r1 r2
         | _, _ => false
         end) l1 l2
  | VDict d1, VDict d2 =>
      (length d1 =? length d2)%nat
      && (fix entries (d : list (string * pyval)) : bool :=
            match d with
            | [] => true
            | (k, x) :: r =>
                match assoc k d2 with
                | Some y => same_content x y
                | None => false
                end && entries r
            end) d1
  | _, _ => false
  end.

(** The block [new_block] builds on a chain that is the list [l]. *)
Definition sealed_block (l txs : list pyval) (proof link : pyval) (now : string)
  : pyval :=
  VDict [ ("index", VInt (Z.of_nat (length l) + 1)); ("timestamp", VFloat now);
          ("transactions", VList txs); ("proof", proof);
          ("previous_hash", link) ].

(** The order in which [sort_items] puts the items. *)
Definition key_le {A : Type} (x y : string * A) : Prop :=
  String.leb (fst x) (fst y) = true.

(** A hexadecimal digit, in lower case. *)
Definition is_hex_digit (c : ascii) : bool :=
  let n := code_point c in
  ((48 <=? n) && (n <=? 57)) || ((97 <=? n) && (n <=? 102)).

(** *** The ledger as a whole *)

(** The transaction that [new_transaction] records. *)
Definition transaction (sender recipient amount : pyval) : pyval :=
  VDict [ ("sender", sender); ("recipient", recipient); ("amount", amount) ].

(** The ledgers an object gets to from its construction by calls of
    [new_transaction], [register_node] and [mine], whatever they return:
    those of a node that has adopted no chain of a peer. *)
Inductive history : Blockchain -> Prop :=
| history_init (now : string) : history (snd (init now))
| history_new_transaction (sender recipient amount : pyval) (self : Blockchain) :
    history self -> history (snd (new_transaction sender recipient amount self))
| history_register_node (address : string) (self : Blockchain) :
    history self -> history (snd (register_node address self))
| history_mine (fuel : nat) (node_identifier now : string)
    (self self' : Blockchain) (r : result pyval) :
    history self -> mine fuel node_identifier now self = Some (r, self') ->
    history self'.

(** The blocks of [l] have the [index] entries [first], [first + 1], ... *)
Fixpoint numbered (first : Z) (l : list pyval) : bool :=
  match l with
  | [] => true
  | b :: rest =>
      match py_getitem b "index" with
      | Ok (VInt i) => i =? first
      | _ => false
      end && numbered (first + 1) rest
  end.

(** The transactions a block holds. *)
Definition block_transactions (b : pyval) : list pyval :=
  match py_getitem b "transactions" with
  | Ok (VList txs) => txs
  | _ => []
  end.

(** Every transaction the ledger has: those of its blocks, in chain order,
    then the pending ones. *)
Definition booked (self : Blockchain) : list pyval :=
  (match chain self with
   | VList l => concat (map block_transactions l)
   | _ => []
   end ++ current_transactions self)%list.

(** The address [resolve_conflicts] asks the peer [node] at. *)
Definition node_url (node : string) : string := "http://" ++ node ++ "/chain".

(** The peer [node] is a node running this program on the ledger [peer]:
    a request to it is answered by the route [/chain], and the body
    arrives as it was sent. *)
Definition serves (requests_get : string -> result response)
  (node : string) (peer : Blockchain) : Prop :=
  exists body,
    fst (Route.full_chain peer) = Ok (body, 200) /\
    requests_get (node_url node) = Ok (mkResponse 200 (Ok body)).

(** The peer [node] answers, with a status other than 200 or with a
    length that is not above [local]. *)
Definition not_longer (requests_get : string -> result response)
  (local : Z) (node : string) : Prop :=
  exists r,
    requests_get (node_url node) = Ok r /\
    (status_code r <> 200 \/
     exists body v c len,
       json r = Ok body /\ py_getitem body "length" = Ok v /\
       py_getitem body "chain" = Ok c /\ reported v = Some len /\ len <= local).

(** A visible ASCII character other than the square brackets. *)
Definition plain_char (c : ascii) : bool :=
  let n := code_point c in
  (33 <=? n) && (n <=? 126) && negb (n =? 91) && negb (n =? 93).

(** ** Ledgers and peers used as concrete inputs *)

Module Examples.

Definition fresh : Blockchain := snd (init "1543700000.5").

Definition genesis : pyval :=
  VDict [ ("index", VInt 1); ("timestamp", VFloat "1543700000.5");
          ("transactions", VList []); ("proof", VInt 100);
          ("previous_hash", VInt 1) ].

(** A ledger whose last block has the proof 88914: [new_block] was called
    with no [previous_hash]. *)
Definition sealed : Blockchain :=
  snd (new_block VNone (VInt 88914) "1543700001.25" fresh).

(** The same, with the transaction A, B, 10 pending. *)
Definition pending : Blockchain :=
  snd (new_transaction (VStr "A") (VStr "B") (VInt 10) sealed).

(** The block that [sealed] has after the genesis block. *)
Definition sealed_second : pyval :=
  VDict [ ("index", VInt 2); ("timestamp", VFloat "1543700001.25");
          ("transactions", VList []); ("proof", VInt 88914);
          ("previous_hash",
           VStr "6123e2e1cd31758ee4713916cc5822ad1a7ade9dd434560b70e0d99813445536") ].

(** The block that [mine] appends to [sealed] at the time 1543700002.0 on
    the node named node. *)
Definition mined_third : pyval :=
  VDict [ ("index", VInt 3); ("timestamp", VFloat "1543700002.0");
          ("transactions",
           VList [VDict [ ("sender", VStr "0"); ("recipient", VStr "node");
                          ("amount", VInt 1) ]]);
          ("proof",
           VStr "895630804c4447c2d2227ab72c62c0daa5b03ad08cd582869847d29bd8057eee");
          ("previous_hash",
           VStr "895630804c4447c2d2227ab72c62c0daa5b03ad08cd582869847d29bd8057eee") ].

(** A block that continues [genesis] as the validator wants it. *)
Definition second : pyval :=
  VDict [ ("index", VInt 2); ("timestamp", VFloat "1543700003.75");
          ("transactions", VList []); ("proof", VInt 72608);
          ("previous_hash",
           VStr "6123e2e1cd31758ee4713916cc5822ad1a7ade9dd434560b70e0d99813445536") ].

(** A record without [previous_hash]. *)
Definition stub : pyval := VDict [ ("index", VInt 2); ("proof", VInt 72608) ].

Definition answer (c : list pyval) (len : Z) : result response :=
  Ok (mkResponse 200 (Ok (VDict [ ("chain", VList c); ("length", VInt len) ]))).

(** One peer, with a valid chain of two blocks. *)
Definition good_net (url : string) : result response :=
  answer [genesis; second] 2.

(** One peer, with a valid chain as long as the local one. *)
Definition tie_net (url : string) : result response :=
  answer [genesis] 1.

(** One peer, whose second record is a stub. *)
Definition bad_net (url : string) : result response :=
  answer [genesis; stub] 2.

Definition with_peer : Blockchain :=
  snd (register_node "http://192.168.0.5:5000" fresh).

(** The genesis record with its keys inserted in another order. *)
Definition genesis_reordered : pyval :=
  VDict [ ("previous_hash", VInt 1); ("proof", VInt 100);
          ("transactions", VList []); ("index", VInt 1);
          ("timestamp", VFloat "1543700000.5") ].

End Examples.

Arguments hash : simpl never.
Arguments valid_proof : simpl never.
Arguments str_of_int : simpl never.
Arguments py_index : simpl never.
Arguments py_getitem : simpl never.

(** * Properties *)

(** ** The digest *)

Lemma hexdigest_length (msg : list Z) : String.length (SHA256.hexdigest msg) = 64%nat.
Proof.
  unfold SHA256.hexdigest, SHA256.hex_of_state, SHA256.hex8. reflexivity.
Qed.

Lemma hex_digit_is_hex (d : Z) :
  0 <= d < 16 -> is_hex_digit (SHA256.hex_digit d) = true.
Proof.
  intros H. replace d with (Z.of_nat (Z.to_nat d)) by lia.
  assert (Hn : (Z.to_nat d < 16)%nat) by lia. revert Hn.
  generalize (Z.to_nat d) as n. intros n Hn.
  do 16 (destruct n as [|n]; [reflexivity|]). lia.
Qed.

Lemma nibble_is_hex (w i : Z) : is_hex_digit (SHA256.nibble w i) = true.
Proof.
  unfold SHA256.nibble. apply hex_digit_is_hex.
  change 0xF with (Z.ones 4). rewrite Z.land_ones by lia.
  apply Z.mod_pos_bound. lia.
Qed.

Lemma hexdigest_hex (msg : list Z) :
  all_chars is_hex_digit (SHA256.hexdigest msg) = true.
Proof.
  unfold SHA256.hexdigest, SHA256.hex_of_state, SHA256.hex8.
  cbn [all_chars]. rewrite !nibble_is_hex. reflexivity.
Qed.

(** From here on the digest is computed, never unfolded. *)
Opaque SHA256.hexdigest.

Lemma hash_length (block : pyval) : String.length (hash block) = 64%nat.
Proof. unfold hash. apply hexdigest_length. Qed.

Lemma hash_hex (block : pyval) : all_chars is_hex_digit (hash block) = true.
Proof. unfold hash. apply hexdigest_hex. Qed.

(** ** Indexing *)

Lemma py_index_last (l : list pyval) :
  py_index (VList l) (-1) =
  match last l with Some x => Ok x | None => Raise IndexError end.
Proof.
  unfold py_index, seq_pos. rewrite last_lookup.
  destruct l as [|x l]; [reflexivity|].
  replace ((0 <=? -1) && (-1 <? Z.of_nat (length (x :: l)))) with false by reflexivity.
  replace (-1 <? 0) with true by reflexivity.
  assert (H : (- Z.of_nat (length (x :: l)) <=? -1) = true)
    by (apply Z.leb_le; simpl length; lia).
  rewrite H. simpl andb. cbv iota.
  replace (Z.to_nat (Z.of_nat (length (x :: l)) + -1)) with (Nat.pred (length (x :: l)))
    by (simpl length; lia).
  destruct ((x :: l) !! Nat.pred (length (x :: l))); reflexivity.
Qed.

Lemma py_index_nat (l : list pyval) (n : nat) :
  py_index (VList l) (Z.of_nat n) =
  match l !! n with Some x => Ok x | None => Raise IndexError end.
Proof.
  unfold py_index, seq_pos.
  destruct (0 <=? Z.of_nat n) eqn:H0; [|apply Z.leb_gt in H0; lia].
  destruct (Z.of_nat n <? Z.of_nat (length l)) eqn:H1; simpl.
  - rewrite Nat2Z.id. reflexivity.
  - destruct (Z.of_nat n <? 0) eqn:H2; [apply Z.ltb_lt in H2; lia|]. simpl.
    apply Z.ltb_ge in H1. rewrite lookup_ge_None_2; [reflexivity|lia].
Qed.

(** ** Proof of work *)

Lemma proof_of_work_from_sound (fuel : nat) (last_proof : pyval) (start p : Z) :
  proof_of_work_from fuel last_proof start = Some p ->
  valid_proof last_proof (VInt p) = true /\ start <= p /\
  forall q, start <= q < p -> valid_proof last_proof (VInt q) = false.
Proof.
  revert start. induction fuel as [|fuel IH]; intros start H; [discriminate|].
  simpl in H. destruct (valid_proof last_proof (VInt start)) eqn:E.
  - injection H as <-. split; [exact E|]. split; [lia|intros; lia].
  - apply IH in H as (Hv & Hle & Hmin). split; [exact Hv|]. split; [lia|].
    intros q Hq. destruct (Z.eq_dec q start) as [->|]; [exact E|apply Hmin; lia].
Qed.

Lemma proof_of_work_from_finds (fuel : nat) (last_proof : pyval) (start q : Z) :
  valid_proof last_proof (VInt q) = true -> start <= q ->
  (Z.to_nat (q - start) < fuel)%nat ->
  exists p, proof_of_work_from fuel last_proof start = Some p /\ p <= q.
Proof.
  revert start. induction fuel as [|fuel IH]; intros start Hq Hle Hfuel; [lia|].
  simpl. destruct (valid_proof last_proof (VInt start)) eqn:E.
  - exists start. split; [reflexivity|exact Hle].
  - assert (start <> q) by (intros ->; rewrite Hq in E; discriminate).
    apply IH; [exact Hq|lia|lia].
Qed.

(** More fuel does not change a proof that was found. *)
Lemma proof_of_work_from_more (fuel extra : nat) (last_proof : pyval) (start p : Z) :
  proof_of_work_from fuel last_proof start = Some p ->
  proof_of_work_from (fuel + extra) last_proof start = Some p.
Proof.
  revert start. induction fuel as [|fuel IH]; intros start H; [discriminate|].
  simpl in *. destruct (valid_proof last_proof (VInt start)); [exact H|].
  apply IH, H.
Qed.

(** ** What a completed [mine] has done *)

Lemma mine_ok (fuel : nat) (id now : string) (self self' : Blockchain) (resp : pyval) :
  mine fuel id now self = Some (Ok resp, self') ->
  exists l final last_proof p,
    chain self = VList l /\ last l = Some final /\
    py_getitem final "proof" = Ok last_proof /\
    proof_of_work fuel last_proof = Some p /\
    self' = mkBlockchain
      (VList (l ++ [sealed_block l (current_transactions self ++ [reward id])
                      (VStr (hash final))
                      (if p =? 0 then VStr (hash final) else VInt p) now]))
      [] (nodes self).
Proof.
  unfold mine. intros H.
  destruct self as [c txs ns]. simpl in *.
  destruct (py_index c (-1)) as [final|] eqn:Hlast; simpl in H; [|discriminate].
  destruct (py_getitem final "proof") as [lp|] eqn:Hlp; simpl in H; [|discriminate].
  destruct (proof_of_work fuel lp) as [p|] eqn:Hpow; [|discriminate].
  injection H as H.
  destruct c as [| | | | s |l|d]; try discriminate.
  - (* a str has characters, which have no entries *)
    exfalso. unfold py_index in Hlast.
    destruct (seq_pos _ _); [|discriminate].
    destruct (get _ _); [|discriminate]. injection Hlast as <-. discriminate.
  - rewrite py_index_last in Hlast.
    destruct (last l) as [x|] eqn:Hl; [|discriminate]. injection Hlast as ->.
    exists l, final, lp, p.
    split; [reflexivity|]. split; [exact Hl|]. split; [exact Hlp|].
    split; [exact Hpow|].
    unfold new_transaction, new_block, last_block, bind, get_self, lift, ret,
      set_current_transactions, set_chain in H. simpl in H.
    rewrite py_index_last, Hl in H.
    destruct (py_getitem final "index") as [ix|]; [|discriminate].
    destruct (py_add_int ix 1); [|discriminate].
    destruct (p =? 0) eqn:Hp; simpl in H.
    + rewrite py_index_last, Hl in H. simpl in H. injection H as _ <-. reflexivity.
    + simpl in H. injection H as _ <-. reflexivity.
Qed.

(** More fuel does not change what [mine] has done. *)
Lemma mine_more (fuel extra : nat) (id now : string) (self : Blockchain)
  (r : result pyval * Blockchain) :
  mine fuel id now self = Some r -> mine (fuel + extra) id now self = Some r.
Proof.
  unfold mine.
  destruct (_ <- py_index (chain self) (-1);; _)%result as [[final lp]|];
    [|intros H; exact H].
  unfold proof_of_work.
  destruct (proof_of_work_from fuel lp 0) as [p|] eqn:Hp; [|discriminate].
  rewrite (proof_of_work_from_more _ extra _ _ _ Hp). intros H. exact H.
Qed.

(** ** Sealing a block *)

Lemma new_block_run (previous_hash proof : pyval) (now : string)
  (l txs : list pyval) (ns : gset string) :
  new_block previous_hash proof now (mkBlockchain (VList l) txs ns) =
  match (if truthy previous_hash then Some previous_hash
         else option_map (fun x => VStr (hash x)) (last l)) with
  | Some link =>
      (Ok (sealed_block l txs proof link now),
       mkBlockchain (VList (l ++ [sealed_block l txs proof link now])) [] ns)
  | None => (Raise IndexError, mkBlockchain (VList l) txs ns)
  end.
Proof.
  unfold new_block, bind, get_self, lift, ret, set_current_transactions, set_chain.
  simpl. destruct (truthy previous_hash); simpl; [reflexivity|].
  rewrite py_index_last. destruct (last l); reflexivity.
Qed.

Lemma init_run (now : string) :
  init now =
  (Ok (sealed_block [] [] (VInt 100) (VInt 1) now),
   mkBlockchain (VList [sealed_block [] [] (VInt 100) (VInt 1) now]) [] ∅).
Proof. unfold init. rewrite new_block_run. reflexivity. Qed.

(** [mine] completes whenever the proof-of-work loop does, on a chain whose
    last block has a [proof] and an integer [index]. *)
Lemma mine_run (fuel : nat) (id now : string) (l txs : list pyval)
  (ns : gset string) (final last_proof : pyval) (ix p : Z) :
  last l = Some final ->
  py_getitem final "proof" = Ok last_proof ->
  py_getitem final "index" = Ok (VInt ix) ->
  proof_of_work fuel last_proof = Some p ->
  exists resp,
    mine fuel id now (mkBlockchain (VList l) txs ns) =
    Some (Ok resp,
          mkBlockchain
            (VList (l ++ [sealed_block l (txs ++ [reward id]) (VStr (hash final))
                            (if p =? 0 then VStr (hash final) else VInt p) now]))
            [] ns).
Proof.
  intros Hl Hlp Hix Hpow. unfold mine. simpl.
  rewrite py_index_last, Hl. simpl. rewrite Hlp. simpl. rewrite Hpow.
  unfold new_transaction, last_block, bind at 1 2 3 4, get_self, lift,
    set_current_transactions. simpl.
  rewrite py_index_last, Hl, Hix. simpl.
  unfold bind at 1. rewrite new_block_run. simpl.
  destruct (p =? 0) eqn:Hp; simpl.
  - rewrite Hl. simpl. eexists. reflexivity.
  - eexists. reflexivity.
Qed.

(** ** Puzzle facts, by computation *)

Lemma valid_proof_100_35293 : valid_proof (VInt 100) (VInt 35293) = true.
Proof. vm_compute. reflexivity. Qed.

Lemma valid_proof_100_0 : valid_proof (VInt 100) (VInt 0) = false.
Proof. vm_compute. reflexivity. Qed.

Lemma valid_proof_88914_0 : valid_proof (VInt 88914) (VInt 0) = true.
Proof. vm_compute. reflexivity. Qed.

Lemma hash_genesis :
  hash Examples.genesis =
  "6123e2e1cd31758ee4713916cc5822ad1a7ade9dd434560b70e0d99813445536".
Proof. vm_compute. reflexivity. Qed.

(** The proof-of-work loop started on the genesis proof ends within 35294
    iterations, on a proof that is not zero. *)
Lemma proof_of_work_genesis :
  exists p, proof_of_work (Z.to_nat 35294) (VInt 100) = Some p /\ 0 < p <= 35293.
Proof.
  destruct (proof_of_work_from_finds (Z.to_nat 35294) (VInt 100) 0 35293)
    as (p & Hp & Hle); [exact valid_proof_100_35293|lia|lia|].
  exists p. split; [exact Hp|].
  apply proof_of_work_from_sound in Hp as (Hv & H0 & _).
  assert (p <> 0) by (intros ->; rewrite valid_proof_100_0 in Hv; discriminate).
  lia.
Qed.

(** ** C1: the link invariant on chains sealed by [mine] *)

(** C1 (fails on the code). On a ledger that was just constructed, [mine]
    completes and appends a block whose [previous_hash] is the integer proof
    it solved, between 1 and 35293, and not [hash] of the genesis block: the
    link [chain[1].previous_hash == hash(chain[0])] is broken, and the
    ledger's own [valid_chain] rejects the chain. *)
Theorem mine_breaks_link (now now' id : string) :
  exists genesis block p resp,
    init now = (Ok genesis, mkBlockchain (VList [genesis]) [] ∅) /\
    mine (Z.to_nat 35294) id now' (snd (init now)) =
      Some (Ok resp, mkBlockchain (VList [genesis; block]) [] ∅) /\
    0 < p <= 35293 /\
    py_getitem block "previous_hash" = Ok (VInt p) /\
    py_ne_str (VInt p) (hash genesis) = true /\
    valid_chain (VList [genesis; block]) = Ok false.
Proof.
  destruct proof_of_work_genesis as (p & Hpow & Hp).
  rewrite init_run. simpl snd.
  set (genesis := sealed_block [] [] (VInt 100) (VInt 1) now).
  destruct (mine_run (Z.to_nat 35294) id now' [genesis] [] ∅ genesis (VInt 100) 1 p)
    as (resp & Hmine); [reflexivity|reflexivity|reflexivity|exact Hpow|].
  assert (Hz : (p =? 0) = false) by (apply Z.eqb_neq; lia).
  rewrite Hz in Hmine. simpl app in Hmine.
  eexists genesis, _, p, resp.
  split; [reflexivity|]. split; [exact Hmine|]. split; [exact Hp|].
  split; [reflexivity|]. split; [reflexivity|].
  unfold valid_chain. rewrite (py_index_nat _ 0). simpl.
  unfold py_index, seq_pos. simpl. reflexivity.
Qed.

(** ** C2: the fields of the block that [mine] seals *)

(** C2 (as stated, refuted). On a ledger whose last block has the proof
    88914 the loop solves the proof 0, and the block that [mine] appends
    has [hash] of the last block, a string, as its [previous_hash]: not the
    solved proof. *)
Lemma mine_zero_proof_counterexample :
  exists resp,
    mine 1 "node" "1543700002.0" Examples.sealed =
      Some (Ok resp,
            mkBlockchain
              (VList [Examples.genesis; Examples.sealed_second; Examples.mined_third])
              [] ∅) /\
    final_block (chain Examples.sealed) = Some Examples.sealed_second /\
    py_getitem Examples.sealed_second "proof" = Ok (VInt 88914) /\
    proof_of_work 1 (VInt 88914) = Some 0 /\
    py_getitem Examples.mined_third "previous_hash" =
      Ok (VStr (hash Examples.sealed_second)) /\
    py_getitem Examples.mined_third "previous_hash" <> Ok (VInt 0).
Proof.
  eexists.
  split; [vm_compute; reflexivity|]. split; [vm_compute; reflexivity|].
  split; [vm_compute; reflexivity|]. split; [vm_compute; reflexivity|].
  split; [vm_compute; reflexivity|]. vm_compute. discriminate.
Qed.

(** C2 (amended). The block appended by a [mine] that completes has
    [hash] of the former last block as its [proof]; its [previous_hash] is
    the solved proof when that proof is not zero, and [hash] of the former
    last block when it is zero. *)
Theorem mine_swaps_fields (fuel : nat) (id now : string)
  (self self' : Blockchain) (resp : pyval) :
  mine fuel id now self = Some (Ok resp, self') ->
  exists final last_proof p block,
    final_block (chain self) = Some final /\
    py_getitem final "proof" = Ok last_proof /\
    proof_of_work fuel last_proof = Some p /\
    valid_proof last_proof (VInt p) = true /\
    final_block (chain self') = Some block /\
    py_getitem block "proof" = Ok (VStr (hash final)) /\
    (p <> 0 -> py_getitem block "previous_hash" = Ok (VInt p)) /\
    (p = 0 -> py_getitem block "previous_hash" = Ok (VStr (hash final))).
Proof.
  intros H. apply mine_ok in H as (l & final & lp & p & Hc & Hl & Hlp & Hpow & ->).
  exists final, lp, p. eexists.
  rewrite Hc. simpl. rewrite last_snoc.
  split; [exact Hl|]. split; [exact Hlp|]. split; [exact Hpow|].
  split; [apply (proof_of_work_from_sound _ _ _ _ Hpow)|].
  split; [reflexivity|]. split; [reflexivity|].
  split; intros Hp.
  - apply Z.eqb_neq in Hp. rewrite Hp. reflexivity.
  - subst p. reflexivity.
Qed.

Lemma mine_swaps_fields_witness :
  exists resp self' final block,
    mine 1 "node" "1543700002.0" Examples.pending = Some (Ok resp, self') /\
    final_block (chain Examples.pending) = Some final /\
    final_block (chain self') = Some block /\
    py_getitem block "proof" = Ok (VStr (hash final)).
Proof.
  destruct (mine 1 "node" "1543700002.0" Examples.pending)
    as [[[resp|e] self']|] eqn:H;
    [|exfalso; vm_compute in H; discriminate..].
  exists resp, self'.
  destruct (mine_swaps_fields _ _ _ _ _ _ H)
    as (final & lp & p & block & Hf & _ & _ & _ & Hb & Hproof & _).
  exists final, block.
  split; [reflexivity|]. split; [exact Hf|]. split; [exact Hb|exact Hproof].
Defined.

(** ** C7: what [mine] does to the chain and to the pending buffer *)

(** C7. After a [mine] that completes the chain is one block longer, no
    transaction is pending, and the new block holds the transactions that
    were pending followed by the reward transaction, in that order. *)
Theorem mine_seals_pending (fuel : nat) (id now : string)
  (self self' : Blockchain) (resp : pyval) :
  mine fuel id now self = Some (Ok resp, self') ->
  exists len block,
    py_len (chain self) = Ok len /\
    py_len (chain self') = Ok (len + 1) /\
    current_transactions self' = [] /\
    final_block (chain self') = Some block /\
    py_getitem block "transactions" =
      Ok (VList (current_transactions self ++ [reward id])) /\
    reward id = VDict [ ("sender", VStr "0"); ("recipient", VStr id);
                        ("amount", VInt 1) ].
Proof.
  intros H. apply mine_ok in H as (l & final & lp & p & Hc & _ & _ & _ & ->).
  exists (Z.of_nat (length l)). eexists. rewrite Hc. simpl.
  rewrite last_snoc, length_app. simpl.
  split; [reflexivity|]. split; [f_equal; lia|].
  split; [reflexivity|]. split; [reflexivity|]. split; reflexivity.
Qed.

Lemma mine_seals_pending_witness :
  exists resp self' block,
    mine 1 "node" "1543700002.0" Examples.pending = Some (Ok resp, self') /\
    py_len (chain self') = Ok 3 /\
    current_transactions self' = [] /\
    final_block (chain self') = Some block /\
    py_getitem block "transactions" =
      Ok (VList [ VDict [ ("sender", VStr "A"); ("recipient", VStr "B");
                          ("amount", VInt 10) ];
                  reward "node" ]).
Proof.
  destruct (mine 1 "node" "1543700002.0" Examples.pending)
    as [[[resp|e] self']|] eqn:H;
    [|exfalso; vm_compute in H; discriminate..].
  exists resp, self'.
  destruct (mine_seals_pending _ _ _ _ _ _ H)
    as (len & block & Hlen & Hlen' & Htx & Hb & Hitems & _).
  exists block.
  assert (len = 2) as -> by (vm_compute in Hlen; congruence).
  assert (Hp : current_transactions Examples.pending =
               [ VDict [ ("sender", VStr "A"); ("recipient", VStr "B");
                         ("amount", VInt 10) ] ])
    by (vm_compute; reflexivity).
  rewrite Hp in Hitems.
  split; [reflexivity|]. split; [exact Hlen'|]. split; [exact Htx|].
  split; [exact Hb|exact Hitems].
Defined.

(** ** C10: the default of [previous_hash] in [new_block] *)

(** C10. On a chain that is a list, [new_block] keeps a [previous_hash]
    that is truthy; one that is falsy, such as 0, the empty string or
    [None], is replaced by [hash] of the last block, and on an empty chain
    the lookup of that block raises [IndexError]. The genesis block is
    sealed on the empty chain with the truthy [previous_hash] 1. *)
Theorem new_block_default (previous_hash proof : pyval) (now : string)
  (l txs : list pyval) (ns : gset string) :
  let self := mkBlockchain (VList l) txs ns in
  (truthy previous_hash = true ->
   exists block self',
     new_block previous_hash proof now self = (Ok block, self') /\
     py_getitem block "previous_hash" = Ok previous_hash) /\
  (truthy previous_hash = false ->
   forall final, last l = Some final ->
   exists block self',
     new_block previous_hash proof now self = (Ok block, self') /\
     py_getitem block "previous_hash" = Ok (VStr (hash final))) /\
  (truthy previous_hash = false -> l = [] ->
   new_block previous_hash proof now self = (Raise IndexError, self)) /\
  (truthy (VInt 0) = false /\ truthy (VStr "") = false /\
   truthy VNone = false /\ truthy (VInt 1) = true) /\
  (exists genesis ledger,
     init now = (Ok genesis, ledger) /\
     py_getitem genesis "previous_hash" = Ok (VInt 1)).
Proof.
  intros self. unfold self. rewrite new_block_run.
  split; [|split; [|split; [|split]]].
  - intros ->. do 2 eexists. split; reflexivity.
  - intros -> final ->. do 2 eexists. split; reflexivity.
  - intros -> ->. reflexivity.
  - repeat split.
  - rewrite init_run. do 2 eexists. split; reflexivity.
Qed.

Lemma new_block_default_witness :
  (exists block self',
     new_block (VInt 7) (VInt 5) "1543700004.5" Examples.fresh = (Ok block, self') /\
     py_getitem block "previous_hash" = Ok (VInt 7)) /\
  (exists block self',
     new_block (VInt 0) (VInt 5) "1543700004.5" Examples.fresh = (Ok block, self') /\
     py_getitem block "previous_hash" = Ok (VStr (hash Examples.genesis))) /\
  new_block VNone (VInt 100) "1543700000.5" (mkBlockchain (VList []) [] ∅) =
    (Raise IndexError, mkBlockchain (VList []) [] ∅).
Proof.
  assert (Hfresh : Examples.fresh = mkBlockchain (VList [Examples.genesis]) [] ∅)
    by (unfold Examples.fresh; rewrite init_run; reflexivity).
  rewrite Hfresh.
  split; [|split].
  - apply (new_block_default (VInt 7) (VInt 5) "1543700004.5"
             [Examples.genesis] [] ∅). reflexivity.
  - apply (new_block_default (VInt 0) (VInt 5) "1543700004.5"
             [Examples.genesis] [] ∅); reflexivity.
  - apply (new_block_default VNone (VInt 100) "1543700000.5" [] [] ∅); reflexivity.
Defined.

(** ** The validator walks adjacent pairs *)

Lemma valid_chain_loop_walk (rest pre : list pyval) (prev : pyval) (fuel : nat) :
  (length rest < fuel)%nat ->
  valid_chain_loop fuel (VList (pre ++ prev :: rest)) prev
    (Z.of_nat (length pre + 1)) = walk_pairs prev rest.
Proof.
  revert pre prev fuel.
  induction rest as [|cur rest IH]; intros pre prev fuel Hfuel;
    (destruct fuel as [|fuel]; [simpl in Hfuel; lia|]).
  - simpl. rewrite length_app. simpl.
    rewrite (proj2 (Z.ltb_ge _ _)) by lia. reflexivity.
  - simpl valid_chain_loop. simpl walk_pairs.
    assert (Hlen : (Z.of_nat (length pre + 1)
                    <? Z.of_nat (length (pre ++ prev :: cur :: rest))) = true)
      by (apply Z.ltb_lt; rewrite length_app; simpl; lia).
    rewrite Hlen. rewrite py_index_nat.
    replace (pre ++ prev :: cur :: rest)%list
      with ((pre ++ [prev]) ++ cur :: rest)%list
      by (rewrite <- app_assoc; reflexivity).
    replace (length pre + 1)%nat with (length (pre ++ [prev])%list)
      by (rewrite length_app; reflexivity).
    rewrite list_lookup_middle by reflexivity. simpl.
    destruct (py_getitem cur "previous_hash") as [link|]; simpl; [|reflexivity].
    destruct (py_ne_str link (hash prev)); [reflexivity|].
    destruct (py_getitem prev "previous_hash") as [lp|]; simpl; [|reflexivity].
    destruct (py_getitem cur "proof") as [p|]; simpl; [|reflexivity].
    destruct (valid_proof lp p); simpl; [|reflexivity].
    replace (Z.of_nat (length (pre ++ [prev])%list) + 1)
      with (Z.of_nat (length (pre ++ [prev])%list + 1)) by lia.
    apply IH. simpl in Hfuel. lia.
Qed.

Lemma valid_chain_walk (first : pyval) (rest : list pyval) :
  valid_chain (VList (first :: rest)) = walk_pairs first rest.
Proof.
  unfold valid_chain. rewrite (py_index_nat _ 0).
  change (valid_chain_loop (S (seq_len (VList (first :: rest))))
            (VList ([] ++ first :: rest)) first
            (Z.of_nat (length (@nil pyval) + 1)) = walk_pairs first rest).
  apply valid_chain_loop_walk. unfold seq_len. simpl. lia.
Qed.

Lemma walk_pairs_is_valid (prev : pyval) (rest : list pyval) :
  forallb block_shaped (prev :: rest) = true ->
  walk_pairs prev rest = Ok (is_valid_from prev rest).
Proof.
  revert prev. induction rest as [|cur rest IH]; intros prev H; [reflexivity|].
  simpl in H. apply andb_prop in H as [Hprev H].
  pose proof H as Hrest. simpl in H. apply andb_prop in H as [Hcur _].
  simpl. unfold field. unfold block_shaped in Hprev, Hcur.
  destruct (py_getitem cur "previous_hash") as [link|]; [|discriminate].
  destruct (py_getitem cur "proof") as [p|]; [|discriminate].
  destruct (py_getitem prev "previous_hash") as [lp|]; [|discriminate].
  simpl. destruct (py_ne_str link (hash prev)); [reflexivity|].
  destruct (valid_proof lp p); simpl; [|reflexivity].
  apply IH, Hrest.
Qed.

(** The only chains that pass are sequences with a first element, which
    are truthy. *)
Lemma valid_chain_truthy (c : pyval) (b : bool) :
  valid_chain c = Ok b -> truthy c = true.
Proof.
  unfold valid_chain. destruct c as [| | | |s|l|d]; try discriminate.
  - destruct s; [discriminate|reflexivity].
  - destruct l; [discriminate|reflexivity].
Qed.

(** ** C3: the validator *)

(** C3. A chain with one block is valid. On a longer chain the validator
    walks the adjacent pairs from index 1 on; where every record has the
    two entries it reads, it answers [False] at the first pair whose link
    is broken or whose puzzle check, made on the [previous_hash] of the
    earlier block and the [proof] of the later one, fails, and [True] when
    there is no such pair. *)
Theorem valid_chain_is_valid (first : pyval) (rest : list pyval) :
  valid_chain (VList [first]) = Ok true /\
  valid_chain (VList (first :: rest)) = walk_pairs first rest /\
  (forallb block_shaped (first :: rest) = true ->
   valid_chain (VList (first :: rest)) = Ok (is_valid_from first rest)).
Proof.
  split; [apply (valid_chain_walk first [])|].
  split; [apply valid_chain_walk|].
  intros H. rewrite valid_chain_walk. apply walk_pairs_is_valid, H.
Qed.

Lemma valid_chain_is_valid_witness :
  valid_chain (VList [Examples.genesis; Examples.second]) = Ok true /\
  valid_chain (VList [Examples.genesis; Examples.sealed_second]) = Ok false.
Proof.
  split.
  - rewrite (proj2 (proj2 (valid_chain_is_valid Examples.genesis [Examples.second])))
      by reflexivity.
    vm_compute. reflexivity.
  - rewrite (proj2 (proj2 (valid_chain_is_valid Examples.genesis
                             [Examples.sealed_second]))) by reflexivity.
    vm_compute. reflexivity.
Defined.

(** ** The scan over the peers *)

Section Scan.

Variable requests_get : string -> result response.

Lemma snapshot_unique (node : string) (len len' : Z) (c c' : pyval) :
  snapshot requests_get node len c -> snapshot requests_get node len' c' ->
  len = len' /\ c = c'.
Proof.
  intros (r & body & v & Hr & _ & Hb & Hv & Hlen & Hc)
         (r' & body' & v' & Hr' & _ & Hb' & Hv' & Hlen' & Hc').
  rewrite Hr in Hr'. injection Hr' as <-.
  rewrite Hb in Hb'. injection Hb' as <-.
  rewrite Hv in Hv'. injection Hv' as <-.
  rewrite Hc in Hc'. injection Hc' as <-.
  rewrite Hlen in Hlen'. injection Hlen' as <-. split; reflexivity.
Qed.

Lemma py_gt_int_reported (v : pyval) (n : Z) (b : bool) :
  py_gt_int v n = Ok b -> reported v = Some (int_value v) /\ b = (n <? int_value v).
Proof.
  destruct v; simpl; intros H; try discriminate; injection H as <-;
    split; reflexivity.
Qed.

(** The scan ends either without a candidate, on the chain it started with,
    or on the chain of a candidate whose reported length no valid snapshot
    exceeds. *)
Lemma resolve_scan_spec (neighbours : list string) (new_chain : pyval)
  (max_chain_length : Z) (found : pyval) :
  resolve_scan requests_get neighbours new_chain max_chain_length = Ok found ->
  (found = new_chain /\
   forall node len c, In node neighbours ->
     ~ candidate requests_get max_chain_length node len c) \/
  (exists node len,
     In node neighbours /\
     candidate requests_get max_chain_length node len found /\
     forall node' len' c', In node' neighbours ->
       snapshot requests_get node' len' c' -> valid_chain c' = Ok true ->
       len' <= len).
Proof.
  revert new_chain max_chain_length.
  induction neighbours as [|node rest IH]; intros new_chain m H.
  { left. injection H as <-. split; [reflexivity|]. intros ? ? ? []. }
  simpl in H.
  destruct (requests_get ("http://" ++ node ++ "/chain")) as [r|] eqn:Hr;
    simpl in H; [|discriminate].
  destruct (status_code r =? 200) eqn:Hs.
  2:{ (* the peer is skipped *)
      apply Z.eqb_neq in Hs.
      assert (Hno : forall len c, ~ snapshot requests_get node len c).
      { intros len c (r' & ? & ? & Hr' & Hs' & _).
        rewrite Hr in Hr'. injection Hr' as <-. contradiction. }
      destruct (IH _ _ H) as [[-> Hnone]|(n2 & l2 & Hin & Hcand & Hmax)].
      - left. split; [reflexivity|].
        intros n' len c [<-|Hin] Hcand; [exact (Hno _ _ (proj1 Hcand))|].
        exact (Hnone n' len c Hin Hcand).
      - right. exists n2, l2. split; [right; exact Hin|]. split; [exact Hcand|].
        intros n' len' c' [<-|Hin'] Hsnap Hv; [destruct (Hno _ _ Hsnap)|].
        apply (Hmax n' len' c' Hin' Hsnap Hv). }
  apply Z.eqb_eq in Hs.
  destruct (json r) as [body|] eqn:Hb; simpl in H; [|discriminate].
  destruct (py_getitem body "length") as [v|] eqn:Hv; simpl in H; [|discriminate].
  destruct (py_getitem body "chain") as [c|] eqn:Hc; simpl in H; [|discriminate].
  destruct (py_gt_int v m) as [longer|] eqn:Hgt; simpl in H; [|discriminate].
  apply py_gt_int_reported in Hgt as [Hrep ->].
  assert (Hsnap : snapshot requests_get node (int_value v) c).
  { exists r, body, v. repeat (split; [assumption|]). assumption. }
  destruct (m <? int_value v) eqn:Hlt.
  - apply Z.ltb_lt in Hlt.
    destruct (valid_chain c) as [valid|] eqn:Hvalid; simpl in H; [|discriminate].
    destruct valid.
    + (* adopted for now *)
      destruct (IH _ _ H) as [[-> Hnone]|(n2 & l2 & Hin & Hcand & Hmax)].
      * right. exists node, (int_value v). split; [left; reflexivity|].
        split; [split; [exact Hsnap|split; [exact Hlt|exact Hvalid]]|].
        intros n' len' c' [<-|Hin'] Hsnap' Hv'.
        -- destruct (snapshot_unique _ _ _ _ _ Hsnap Hsnap') as [<- _]. lia.
        -- destruct (Z.le_gt_cases len' (int_value v)) as [Hle|Hgt]; [exact Hle|].
           destruct (Hnone n' len' c' Hin').
           split; [exact Hsnap'|split; [lia|exact Hv']].
      * destruct Hcand as (Hsnap2 & Hlt2 & Hv2).
        right. exists n2, l2. split; [right; exact Hin|].
        split; [split; [exact Hsnap2|split; [lia|exact Hv2]]|].
        intros n' len' c' [<-|Hin'] Hsnap' Hv'.
        -- destruct (snapshot_unique _ _ _ _ _ Hsnap Hsnap') as [<- _]. lia.
        -- apply (Hmax n' len' c' Hin' Hsnap' Hv').
    + (* longer, but not valid *)
      destruct (IH _ _ H) as [[-> Hnone]|(n2 & l2 & Hin & Hcand & Hmax)].
      * left. split; [reflexivity|].
        intros n' len' c' [<-|Hin'] (Hsnap' & H0 & Hv').
        -- destruct (snapshot_unique _ _ _ _ _ Hsnap Hsnap') as [_ <-].
           rewrite Hvalid in Hv'. discriminate.
        -- apply (Hnone n' len' c' Hin'). split; [exact Hsnap'|].
           split; [exact H0|exact Hv'].
      * right. exists n2, l2. split; [right; exact Hin|]. split; [exact Hcand|].
        intros n' len' c' [<-|Hin'] Hsnap' Hv'.
        -- destruct (snapshot_unique _ _ _ _ _ Hsnap Hsnap') as [_ <-].
           rewrite Hvalid in Hv'. discriminate.
        -- apply (Hmax n' len' c' Hin' Hsnap' Hv').
  - (* not longer *)
    apply Z.ltb_ge in Hlt.
    destruct (IH _ _ H) as [[-> Hnone]|(n2 & l2 & Hin & Hcand & Hmax)].
    + left. split; [reflexivity|].
      intros n' len' c' [<-|Hin'] (Hsnap' & Hlt' & Hv').
      * destruct (snapshot_unique _ _ _ _ _ Hsnap Hsnap') as [<- _]. lia.
      * apply (Hnone n' len' c' Hin'). split; [exact Hsnap'|].
        split; [exact Hlt'|exact Hv'].
    + right. exists n2, l2. split; [right; exact Hin|]. split; [exact Hcand|].
      intros n' len' c' [<-|Hin'] Hsnap' Hv'.
      * destruct (snapshot_unique _ _ _ _ _ Hsnap Hsnap') as [<- _].
        destruct Hcand as (_ & Hlt2 & _). lia.
      * apply (Hmax n' len' c' Hin' Hsnap' Hv').
Qed.

End Scan.

(** ** The resolver *)

Section Resolver.

Variable requests_get : string -> result response.

Lemma resolve_conflicts_in_spec (neighbours : list string)
  (self self' : Blockchain) (replaced : bool) :
  resolve_conflicts_in requests_get neighbours self = (Ok replaced, self') ->
  exists local,
    py_len (chain self) = Ok local /\
    (replaced = true ->
     exists node len,
       In node neighbours /\
       candidate requests_get local node len (chain self') /\
       (forall node' len' c', In node' neighbours ->
          snapshot requests_get node' len' c' -> valid_chain c' = Ok true ->
          len' <= len) /\
       current_transactions self' = current_transactions self /\
       nodes self' = nodes self) /\
    (replaced = false ->
     self' = self /\
     forall node len c, In node neighbours ->
       ~ candidate requests_get local node len c).
Proof.
  unfold resolve_conflicts_in, bind, get_self, lift, ret, set_chain.
  destruct self as [c txs ns]. simpl. intros H.
  destruct (py_len c) as [local|]; [|discriminate].
  destruct (resolve_scan requests_get neighbours VNone local) as [found|] eqn:Hscan;
    [|discriminate].
  exists local. split; [reflexivity|].
  apply resolve_scan_spec in Hscan.
  destruct (truthy found) eqn:Ht; injection H as <- <-.
  - split; [|discriminate]. intros _.
    destruct Hscan as [[-> _]|(node & len & Hin & Hcand & Hmax)]; [discriminate|].
    exists node, len. simpl. repeat (split; [assumption|]).
    split; reflexivity.
  - split; [discriminate|]. intros _.
    destruct Hscan as [[_ Hnone]|(node & len & _ & (_ & _ & Hv) & _)].
    + split; [reflexivity|exact Hnone].
    + apply valid_chain_truthy in Hv. rewrite Hv in Ht. discriminate.
Qed.

(** An exception leaves the ledger as it was. *)
Lemma resolve_conflicts_in_raise (neighbours : list string)
  (self self' : Blockchain) (e : exn) :
  resolve_conflicts_in requests_get neighbours self = (Raise e, self') ->
  self' = self.
Proof.
  unfold resolve_conflicts_in, bind, get_self, lift, ret, set_chain.
  simpl. intros H.
  destruct (py_len (chain self)); [|injection H as _ <-; reflexivity].
  destruct (resolve_scan requests_get neighbours VNone a);
    [|injection H as _ <-; reflexivity].
  destruct (truthy a0); discriminate.
Qed.

(** A peer that answers with another status than 200 is passed over. *)
Lemma resolve_scan_skips (node : string) (rest : list string) (r : response)
  (new_chain : pyval) (max_chain_length : Z) :
  requests_get ("http://" ++ node ++ "/chain") = Ok r ->
  status_code r <> 200 ->
  resolve_scan requests_get (node :: rest) new_chain max_chain_length =
  resolve_scan requests_get rest new_chain max_chain_length.
Proof.
  intros Hr Hs. simpl. rewrite Hr. simpl.
  apply Z.eqb_neq in Hs. rewrite Hs. reflexivity.
Qed.

End Resolver.

(** ** C5: the longest valid chain wins *)

(** C5. When [resolve_conflicts] returns, it returns [True] exactly when
    some peer answered with a chain that passes [valid_chain] and a
    reported length strictly above the length of the local chain; the local
    chain is then the chain of such a peer whose reported length no other
    such peer exceeds, and nothing else of the ledger has changed. It
    returns [False] when there is no such peer, equal lengths included, and
    the ledger is then untouched. *)
Theorem resolve_conflicts_longest_valid
  (requests_get : string -> result response)
  (self self' : Blockchain) (replaced : bool) :
  resolve_conflicts requests_get self = (Ok replaced, self') ->
  exists local,
    py_len (chain self) = Ok local /\
    (replaced = true ->
     exists node len,
       node ∈ nodes self /\
       candidate requests_get local node len (chain self') /\
       (forall node' len' c', node' ∈ nodes self ->
          candidate requests_get local node' len' c' -> len' <= len) /\
       current_transactions self' = current_transactions self /\
       nodes self' = nodes self) /\
    (replaced = false ->
     self' = self /\
     forall node len c, node ∈ nodes self ->
       ~ candidate requests_get local node len c).
Proof.
  unfold resolve_conflicts. intros H.
  apply resolve_conflicts_in_spec in H as (local & Hlen & Htrue & Hfalse).
  assert (Hin : forall node, node ∈ nodes self <-> In node (elements (nodes self))).
  { intros node. rewrite <- list_elem_of_In. symmetry. apply elem_of_elements. }
  exists local. split; [exact Hlen|]. split.
  - intros Hr. destruct (Htrue Hr) as (node & len & Hn & Hcand & Hmax & Htx & Hns).
    exists node, len. split; [apply Hin, Hn|]. split; [exact Hcand|].
    split; [|split; assumption].
    intros node' len' c' Hn' (Hsnap & _ & Hv).
    apply (Hmax node' len' c'); [apply Hin, Hn'|exact Hsnap|exact Hv].
  - intros Hr. destruct (Hfalse Hr) as [-> Hnone]. split; [reflexivity|].
    intros node len c Hn. apply Hnone, Hin, Hn.
Qed.

Lemma resolve_conflicts_longest_valid_witness :
  (exists self',
     resolve_conflicts Examples.good_net Examples.with_peer = (Ok true, self') /\
     chain self' = VList [Examples.genesis; Examples.second] /\
     py_len (chain Examples.with_peer) = Ok 1 /\
     exists node, node ∈ nodes Examples.with_peer /\
       candidate Examples.good_net 1 node 2 (chain self')) /\
  resolve_conflicts Examples.tie_net Examples.with_peer =
    (Ok false, Examples.with_peer).
Proof.
  split.
  - destruct (resolve_conflicts Examples.good_net Examples.with_peer)
      as [[replaced|e] self'] eqn:H; [|exfalso; vm_compute in H; discriminate].
    assert (replaced = true) as -> by (vm_compute in H; congruence).
    exists self'.
    destruct (resolve_conflicts_longest_valid _ _ _ _ H)
      as (local & Hlen & Htrue & _).
    destruct (Htrue eq_refl) as (node & len & Hn & Hcand & _).
    assert (local = 1) as -> by (vm_compute in Hlen; congruence).
    assert (Hc : chain self' = VList [Examples.genesis; Examples.second])
      by (vm_compute in H; injection H as <-; reflexivity).
    split; [reflexivity|]. split; [exact Hc|]. split; [reflexivity|].
    exists node. split; [exact Hn|].
    destruct Hcand
      as ((r & body & v & Hr & Hs & Hb & Hv & Hrep & Hch) & Hlt & Hvalid).
    injection Hr as <-. injection Hb as <-. injection Hv as <-.
    injection Hrep as <-.
    split; [|split; [lia|exact Hvalid]].
    exists (mkResponse 200
              (Ok (VDict [ ("chain", VList [Examples.genesis; Examples.second]);
                           ("length", VInt 2) ]))),
      (VDict [ ("chain", VList [Examples.genesis; Examples.second]);
               ("length", VInt 2) ]), (VInt 2).
    repeat (split; [reflexivity|]). exact Hch.
  - destruct (resolve_conflicts Examples.tie_net Examples.with_peer)
      as [[replaced|e] self'] eqn:H; [|exfalso; vm_compute in H; discriminate].
    assert (replaced = false) as -> by (vm_compute in H; congruence).
    destruct (resolve_conflicts_longest_valid _ _ _ _ H)
      as (local & _ & _ & Hfalse).
    destruct (Hfalse eq_refl) as [-> _]. reflexivity.
Defined.

(** ** C6: malformed records *)

(** C6 (as stated, refuted). A peer sends a chain whose second record has
    no [previous_hash]: [valid_chain] raises [KeyError] instead of giving
    a boolean, and the exception leaves [resolve_conflicts]. *)
Lemma malformed_record_counterexample :
  valid_chain (VList [Examples.genesis; Examples.stub]) =
    Raise (KeyError "previous_hash") /\
  resolve_conflicts Examples.bad_net Examples.with_peer =
    (Raise (KeyError "previous_hash"), Examples.with_peer).
Proof. split; vm_compute; reflexivity. Qed.

(** C6 (amended). On a chain that is a non-empty list of records which all
    have a [previous_hash] and a [proof], [valid_chain] gives a boolean. A
    peer answering with another status than 200 is passed over. Whatever
    is raised while a peer is asked or its chain validated leaves
    [resolve_conflicts], with the ledger as it was. *)
Theorem validation_outcome (requests_get : string -> result response)
  (first : pyval) (rest : list pyval) :
  (forallb block_shaped (first :: rest) = true ->
   exists b, valid_chain (VList (first :: rest)) = Ok b) /\
  (forall node others r new_chain max_chain_length,
     requests_get ("http://" ++ node ++ "/chain") = Ok r ->
     status_code r <> 200 ->
     resolve_scan requests_get (node :: others) new_chain max_chain_length =
     resolve_scan requests_get others new_chain max_chain_length) /\
  (forall self self' e,
     resolve_conflicts requests_get self = (Raise e, self') -> self' = self).
Proof.
  split; [|split].
  - intros H. exists (is_valid_from first rest).
    rewrite valid_chain_walk. apply walk_pairs_is_valid, H.
  - intros node others r new_chain m. apply resolve_scan_skips.
  - intros self self' e. apply resolve_conflicts_in_raise.
Qed.

Lemma validation_outcome_witness :
  (exists b, valid_chain (VList [Examples.genesis; Examples.second]) = Ok b) /\
  resolve_scan (fun _ => Ok (mkResponse 404 (Raise ValueError)))
    ["192.168.0.5:5000"] VNone 1 = Ok VNone /\
  snd (resolve_conflicts Examples.bad_net Examples.with_peer) = Examples.with_peer.
Proof.
  split; [|split].
  - apply (validation_outcome Examples.good_net Examples.genesis [Examples.second]).
    reflexivity.
  - rewrite (proj1 (proj2 (validation_outcome
                             (fun _ => Ok (mkResponse 404 (Raise ValueError)))
                             Examples.genesis []))
               "192.168.0.5:5000" [] (mkResponse 404 (Raise ValueError)) VNone 1);
      [reflexivity|reflexivity|discriminate].
  - destruct (resolve_conflicts Examples.bad_net Examples.with_peer)
      as [[replaced|e] self'] eqn:H; [exfalso; vm_compute in H; discriminate|].
    exact (proj2 (proj2 (validation_outcome Examples.bad_net Examples.genesis []))
             _ _ _ H).
Defined.

(** ** C4: the puzzle predicate *)

Lemma first_four_zeros (digest : string) :
  String.eqb (substring 0 4 digest) "0000" = true <-> four_zeros digest.
Proof.
  rewrite String.eqb_eq. unfold four_zeros.
  assert (H0 : forall s, substring 0 0 s = "") by (intros []; reflexivity).
  destruct digest as [|c1 [|c2 [|c3 [|c4 rest]]]]; simpl; rewrite ?H0;
    (split; [intros H; try discriminate|intros [r H]; try discriminate]).
  - injection H as -> -> -> ->. exists rest. reflexivity.
  - injection H as -> -> -> -> _. reflexivity.
Qed.

(** C4. For integers [last_proof] and [proof], [valid_proof] is true
    exactly when the 64 hexadecimal characters of the SHA-256 digest of
    their decimal texts, put one after the other with nothing in between,
    start with four zeros, and false for every other digest; as a function
    of its two arguments it has no effect besides its value. *)
Theorem valid_proof_four_zeros (last_proof proof : Z) :
  let guess_hash :=
    SHA256.hexdigest (encode (str_of_int last_proof ++ str_of_int proof)) in
  String.length guess_hash = 64%nat /\
  (valid_proof (VInt last_proof) (VInt proof) = true <-> four_zeros guess_hash) /\
  (valid_proof (VInt last_proof) (VInt proof) = false <-> ~ four_zeros guess_hash).
Proof.
  intros guess_hash. split; [apply hexdigest_length|].
  assert (H : valid_proof (VInt last_proof) (VInt proof) = true
              <-> four_zeros guess_hash) by apply first_four_zeros.
  split; [exact H|].
  destruct (valid_proof (VInt last_proof) (VInt proof)).
  - split; [discriminate|]. intros Hn. destruct Hn. apply H. reflexivity.
  - split; [|reflexivity]. intros _ Hz. apply H in Hz. discriminate.
Qed.

(** The texts are joined without a delimiter: 100 and 35293 give the guess
    10035293, whose digest starts with four zeros. *)
Lemma valid_proof_example :
  str_of_int 100 ++ str_of_int 35293 = "10035293" /\
  SHA256.hexdigest (encode "10035293") =
    "0000c415de5ceea33c02daa85a1c218ecca1b1c9e9864ed34d183597844de8e2" /\
  valid_proof (VInt 100) (VInt 35293) = true.
Proof.
  split; [vm_compute; reflexivity|]. split; [vm_compute; reflexivity|].
  exact valid_proof_100_35293.
Qed.

(** ** C9: registering a peer *)




(** ** Sorting the items of a [dict] *)

Section SortItems.

Context {A : Type}.

#[local] Instance key_le_trans : Transitive (@key_le A).
Proof.
  intros x y z Hxy Hyz. unfold key_le in *.
  apply Is_true_true. apply Is_true_true in Hxy, Hyz.
  exact (transitivity (R := String.le) Hxy Hyz).
Qed.

Lemma insert_item_perm (kv : string * A) (l : list (string * A)) :
  insert_item kv l ≡ₚ kv :: l.
Proof.
  induction l as [|x l IH]; simpl; [reflexivity|].
  destruct (String.leb (fst kv) (fst x)); [reflexivity|].
  rewrite IH. apply Permutation_swap.
Qed.

Lemma sort_items_perm (l : list (string * A)) : sort_items l ≡ₚ l.
Proof.
  induction l as [|x l IH]; simpl; [reflexivity|].
  rewrite insert_item_perm, IH. reflexivity.
Qed.

Lemma insert_item_sorted (kv : string * A) (l : list (string * A)) :
  Sorted key_le l -> Sorted key_le (insert_item kv l).
Proof.
  induction l as [|x l IH]; intros Hl; simpl.
  - constructor; constructor.
  - destruct (String.leb (fst kv) (fst x)) eqn:E.
    + constructor; [exact Hl|]. constructor. exact E.
    + apply Sorted_inv in Hl as [Hl Hx]. constructor; [apply IH, Hl|].
      assert (Hxk : key_le x kv).
      { unfold key_le. destruct (String.leb_total (fst x) (fst kv)) as [H|H];
          [exact H|]. rewrite H in E. discriminate. }
      destruct l as [|y l]; simpl.
      * constructor. exact Hxk.
      * destruct (String.leb (fst kv) (fst y)); constructor;
          [exact Hxk|]. inversion Hx. assumption.
Qed.

Lemma sort_items_sorted (l : list (string * A)) : Sorted key_le (sort_items l).
Proof.
  induction l as [|x l IH]; simpl; [constructor|].
  apply insert_item_sorted, IH.
Qed.

(** With no key twice, a pair is known by its key. *)
Lemma unique_key_pair (l : list (string * A)) (x y : string * A) :
  NoDup (map fst l) -> In x l -> In y l -> fst x = fst y -> x = y.
Proof.
  induction l as [|z l IH]; intros Hnd Hx Hy Hk; [destruct Hx|].
  simpl in Hnd. apply NoDup_cons in Hnd as [Hz Hnd].
  destruct Hx as [->|Hx], Hy as [->|Hy].
  - reflexivity.
  - destruct Hz. rewrite Hk. apply list_elem_of_In, in_map, Hy.
  - destruct Hz. rewrite <- Hk. apply list_elem_of_In, in_map, Hx.
  - apply IH; assumption.
Qed.

(** The order of insertion is forgotten by the sort. *)
Lemma sort_items_unique (l1 l2 : list (string * A)) :
  NoDup (map fst l2) -> l1 ≡ₚ l2 -> sort_items l1 = sort_items l2.
Proof.
  intros Hnd Hp.
  apply (Sorted_unique_strong key_le);
    [|apply sort_items_sorted|apply sort_items_sorted|].
  - intros x y Hx Hy Hxy Hyx.
    apply (unique_key_pair l2); [exact Hnd| | |].
    + apply list_elem_of_In in Hx. rewrite sort_items_perm, Hp in Hx.
      exact Hx.
    + apply list_elem_of_In in Hy. rewrite sort_items_perm in Hy.
      exact Hy.
    + apply String.leb_antisym; assumption.
  - rewrite !sort_items_perm. exact Hp.
Qed.

End SortItems.

(** ** Induction on values, through lists and dictionaries *)

Lemma pyval_nested_ind (P : pyval -> Prop) :
  P VNone -> (forall b, P (VBool b)) -> (forall n, P (VInt n)) ->
  (forall r, P (VFloat r)) -> (forall s, P (VStr s)) ->
  (forall l, Forall P l -> P (VList l)) ->
  (forall d, Forall (fun kv => P (snd kv)) d -> P (VDict d)) ->
  forall v, P v.
Proof.
  intros HN HB HI HF HS HL HD.
  fix IH 1. intros [| b | n | r | s | l | d].
  - exact HN.
  - apply HB.
  - apply HI.
  - apply HF.
  - apply HS.
  - apply HL. induction l as [|x l IHl]; constructor; [apply IH|exact IHl].
  - apply HD. induction d as [|[k x] d IHd]; constructor; [apply IH|exact IHd].
Qed.

(** ** Equal content, equal text *)

Lemma assoc_In (k : string) (d : list (string * pyval)) (y : pyval) :
  assoc k d = Some y -> In (k, y) d.
Proof.
  induction d as [|[k' x] d IH]; simpl; [discriminate|].
  destruct (String.eqb_spec k' k) as [->|_].
  - intros H. injection H as ->. left. reflexivity.
  - intros H. right. apply IH, H.
Qed.

Lemma same_content_list (l1 l2 : list pyval) :
  same_content (VList l1) (VList l2) = true ->
  Forall2 (fun x y => same_content x y = true) l1 l2.
Proof.
  revert l2. induction l1 as [|x l1 IH]; intros [|y l2] H;
    try discriminate; constructor.
  - apply andb_prop in H as [Hx _]. exact Hx.
  - apply IH. apply andb_prop in H as [_ Hr]. exact Hr.
Qed.

Lemma same_content_dict (d1 d2 : list (string * pyval)) :
  same_content (VDict d1) (VDict d2) =
  (length d1 =? length d2)%nat
  && forallb (fun kv => match assoc (fst kv) d2 with
                        | Some y => same_content (snd kv) y
                        | None => false
                        end) d1.
Proof.
  simpl. f_equal. induction d1 as [|[k x] d1 IH]; [reflexivity|].
  simpl. rewrite IH. reflexivity.
Qed.

Lemma unique_keys_dict (d : list (string * pyval)) :
  unique_keys (VDict d) =
  bool_decide (NoDup (map fst d)) && forallb (fun kv => unique_keys (snd kv)) d.
Proof.
  simpl. f_equal. induction d as [|[k x] d IH]; [reflexivity|].
  simpl. rewrite IH. reflexivity.
Qed.

Lemma json_dumps_dict (d : list (string * pyval)) :
  json_dumps (VDict d) =
  "{" ++ join (map json_item
                 (sort_items (map (fun kv => (fst kv, json_dumps (snd kv))) d)))
      ++ "}".
Proof.
  simpl. do 3 f_equal. f_equal.
  induction d as [|[k x] d IH]; [reflexivity|]. simpl. rewrite IH. reflexivity.
Qed.

Lemma same_content_dumps (v1 : pyval) :
  forall v2, unique_keys v1 = true -> unique_keys v2 = true ->
    same_content v1 v2 = true -> json_dumps v1 = json_dumps v2.
Proof.
  induction v1 as [| b | n | r | s | l IH | d IH] using pyval_nested_ind;
    intros v2 H1 H2 Hs; destruct v2 as [| b' | n' | r' | s' | l' | d'];
    try discriminate.
  - reflexivity.
  - simpl in Hs. apply eqb_prop in Hs as ->. reflexivity.
  - simpl in Hs. apply Z.eqb_eq in Hs as ->. reflexivity.
  - simpl in Hs. apply String.eqb_eq in Hs as ->. reflexivity.
  - simpl in Hs. apply String.eqb_eq in Hs as ->. reflexivity.
  - apply same_content_list in Hs.
    change (unique_keys (VList l)) with (forallb unique_keys l) in H1.
    change (unique_keys (VList l')) with (forallb unique_keys l') in H2.
    assert (Hmap : map json_dumps l = map json_dumps l').
    { clear -IH Hs H1 H2. revert l' Hs H2.
      induction l as [|x l IHl]; intros l' Hs H2; inversion Hs; subst;
        [reflexivity|].
      simpl in H1, H2. apply andb_prop in H1 as [Hx H1].
      apply andb_prop in H2 as [Hy H2].
      apply Forall_cons in IH as [IHx IH]. simpl. f_equal.
      - apply IHx; assumption.
      - apply IHl; assumption. }
    simpl. rewrite Hmap. reflexivity.
  - rewrite same_content_dict in Hs. apply andb_prop in Hs as [Hlen Hs].
    apply Nat.eqb_eq in Hlen.
    rewrite unique_keys_dict in H1, H2.
    apply andb_prop in H1 as [Hnd1 Hu1]. apply andb_prop in H2 as [Hnd2 Hu2].
    apply bool_decide_eq_true in Hnd1, Hnd2.
    rewrite forallb_forall in Hs, Hu1, Hu2. rewrite Forall_forall in IH.
    rewrite !json_dumps_dict. do 3 f_equal. f_equal.
    set (render := fun kv : string * pyval => (fst kv, json_dumps (snd kv))).
    assert (Hkeys : forall d0, map fst (map render d0) = map fst d0).
    { intros d0. rewrite map_map. reflexivity. }
    apply sort_items_unique; [rewrite Hkeys; exact Hnd2|].
    assert (Hnd : NoDup (map render d)).
    { apply (NoDup_fmap_1 fst). change (NoDup (map fst (map render d))).
      rewrite Hkeys. exact Hnd1. }
    apply submseteq_length_Permutation; [|rewrite !length_map; lia].
    apply NoDup_submseteq; [exact Hnd|].
    intros p Hp. apply list_elem_of_In in Hp.
    apply in_map_iff in Hp as ([k x] & <- & Hin).
    specialize (Hs _ Hin). simpl in Hs.
    destruct (assoc k d') as [y|] eqn:Hy; [|discriminate].
    apply assoc_In in Hy. apply list_elem_of_In, in_map_iff. exists (k, y).
    split; [|exact Hy]. unfold render. simpl. f_equal. symmetry.
    apply (IH (k, x)).
    + apply list_elem_of_In, Hin.
    + apply (Hu1 _ Hin).
    + apply (Hu2 _ Hy).
    + exact Hs.
Qed.

(** ** C8: the hash of a block does not depend on the order of its keys *)

(** C8. Two records with the same content, whatever the order in which
    their keys were inserted, nested values included, have the same hash,
    and a hash is a text of 64 hexadecimal digits. *)
Theorem hash_ignores_key_order (block1 block2 : pyval) :
  unique_keys block1 = true -> unique_keys block2 = true ->
  same_content block1 block2 = true ->
  hash block1 = hash block2 /\
  String.length (hash block1) = 64%nat /\
  all_chars is_hex_digit (hash block1) = true.
Proof.
  intros H1 H2 Hs. split; [|split; [apply hash_length|apply hash_hex]].
  unfold hash. rewrite (same_content_dumps block1 block2 H1 H2 Hs). reflexivity.
Qed.

Lemma hash_ignores_key_order_witness :
  hash Examples.genesis = hash Examples.genesis_reordered /\
  String.length (hash Examples.genesis) = 64%nat /\
  all_chars is_hex_digit (hash Examples.genesis) = true.
Proof.
  apply (hash_ignores_key_order Examples.genesis Examples.genesis_reordered);
    vm_compute; reflexivity.
Defined.
